(** * Room view of the bill splitter: message log, presence and sending

    A shallow embedding of [src/frontend/src/pages/Room.tsx].  The file
    holds two revisions of the [Room] component; both are transcribed,
    the first as [RoomV1] and the second as [RoomV2].

    The component is event driven and single threaded: every callback
    (a settled request, a socket event, a click) runs to completion on
    the React state.  Each callback is a function on a [State] record;
    requests are represented by the event of their settling, with the
    outcome of the request as the event's argument.  What a callback
    does besides updating the state (toasts, navigation, socket emits,
    console output) is appended to the [effects] field in the order it
    happens. *)

From Stdlib Require Import String Ascii List ZArith Bool Lia.
From Stdlib Require Import Sorted Permutation DecimalString.
Import ListNotations.
Local Open Scope string_scope.

(** ** Values and operators of the host language *)

Module Js.

(** A property read on an untyped record yields a string or
    [undefined]; [None] is [undefined]. *)
Definition truthy (v : option string) : bool :=
  match v with
  | Some s => negb (String.eqb s "")
  | None => false
  end.

(** Truthiness of a reference that may be [null]. *)
Definition defined {A : Type} (v : option A) : bool :=
  match v with
  | Some _ => true
  | None => false
  end.

(** [a || b] on two property reads. *)
Definition or (a b : option string) : option string :=
  if truthy a then a else b.

(** [a || "literal"]: the right operand is a string, so is the result. *)
Definition orDefault (a : option string) (d : string) : string :=
  match a with
  | Some s => if String.eqb s "" then d else s
  | None => d
  end.

(** The strings of the model are byte strings that hold the UTF-8 form
    of the host's strings.  White space is what [String.prototype.trim]
    strips, the WhiteSpace and LineTerminator code points:

    - one byte: TAB, LF, VT, FF, CR and SP;
    - two bytes: U+00A0 (C2 A0);
    - three bytes: U+1680 (E1 9A 80), U+2000 to U+200A (E2 80 80 to
      E2 80 8A), U+2028 and U+2029 (E2 80 A8, E2 80 A9), U+202F
      (E2 80 AF), U+205F (E2 81 9F), U+3000 (E3 80 80) and U+FEFF
      (EF BB BF). *)
Definition whiteSpace1 (c : ascii) : bool :=
  let n := nat_of_ascii c in
  ((9 <=? n) && (n <=? 13))%nat || (n =? 32)%nat.

Definition whiteSpace2 (c1 c2 : ascii) : bool :=
  ((nat_of_ascii c1 =? 194) && (nat_of_ascii c2 =? 160))%nat.

Definition whiteSpace3 (c1 c2 c3 : ascii) : bool :=
  let n1 := nat_of_ascii c1 in
  let n2 := nat_of_ascii c2 in
  let n3 := nat_of_ascii c3 in
  (((n1 =? 225) && (n2 =? 154) && (n3 =? 128))
   || ((n1 =? 226) && (n2 =? 128)
       && (((128 <=? n3) && (n3 <=? 138)) || (n3 =? 168) || (n3 =? 169) || (n3 =? 175)))
   || ((n1 =? 226) && (n2 =? 129) && (n3 =? 159))
   || ((n1 =? 227) && (n2 =? 128) && (n3 =? 128))
   || ((n1 =? 239) && (n2 =? 187) && (n3 =? 191)))%nat.

(** The string behind one white space character at its head. *)
Definition skipWhiteSpace (s : string) : option string :=
  match s with
  | EmptyString => None
  | String c1 r1 =>
      if whiteSpace1 c1 then Some r1
      else
        match r1 with
        | EmptyString => None
        | String c2 r2 =>
            if whiteSpace2 c1 c2 then Some r2
            else
              match r2 with
              | EmptyString => None
              | String c3 r3 => if whiteSpace3 c1 c2 c3 then Some r3 else None
              end
        end
  end.

Fixpoint trimStart (s : string) : string :=
  match s with
  | EmptyString => s
  | String c1 r1 =>
      if whiteSpace1 c1 then trimStart r1
      else
        match r1 with
        | EmptyString => s
        | String c2 r2 =>
            if whiteSpace2 c1 c2 then trimStart r2
            else
              match r2 with
              | EmptyString => s
              | String c3 r3 => if whiteSpace3 c1 c2 c3 then trimStart r3 else s
              end
        end
  end.

(** The string is white space from end to end. *)
Definition allWhiteSpace (s : string) : bool := String.eqb (trimStart s) "".

(** The string without the longest tail that is white space from end to
    end. *)
Fixpoint trimEnd (s : string) : string :=
  match s with
  | EmptyString => EmptyString
  | String c s' => if allWhiteSpace s then EmptyString else String c (trimEnd s')
  end.

Definition trim (s : string) : string := trimEnd (trimStart s).

(** Truthiness of [s.trim()]. *)
Definition nonBlank (s : string) : bool := negb (String.eqb (trim s) "").

(** [index.toString()] *)
Definition toString (n : nat) : string := NilEmpty.string_of_uint (Nat.to_uint n).

(** [Array.prototype.map] with a callback that reads the clock: the
    callback of the element at index [i] sees the reading [clock i]. *)
Fixpoint mapAt {A B : Type} (f : string -> A -> B) (clock : nat -> string)
         (i : nat) (l : list A) : list B :=
  match l with
  | [] => []
  | x :: l' => f (clock i) x :: mapAt f clock (S i) l'
  end.

Section Sort.
Context {A : Type}.
(** The comparator's result; [None] is [NaN]. *)
Variable compareFn : A -> A -> option Z.

(** The comparison [Array.prototype.sort] performs: a [NaN] result
    counts as [+0]. *)
Definition sortCompare (x y : A) : Z :=
  match compareFn x y with
  | Some v => v
  | None => 0
  end.

Fixpoint insert (x : A) (l : list A) : list A :=
  match l with
  | [] => [x]
  | y :: l' => if (sortCompare x y <=? 0)%Z then x :: y :: l' else y :: insert x l'
  end.

(** [Array.prototype.sort] is a stable sort; the model is the stable
    insertion sort (an element goes in front of the first element it
    does not compare greater than, so it stays in front of the equal
    elements that followed it).  While the comparator is consistent
    (here: while no date is unreadable, so that no result is [NaN])
    every stable sort gives this list.  With [NaN] results the order is
    left to the implementation, and on longer lists the host's order
    can differ from the model's. *)
Definition sort (l : list A) : list A := fold_right insert [] l.
End Sort.

End Js.

(** ** Time values of ISO strings *)

Module IsoDate.
Local Open Scope Z_scope.

Definition digit (c : ascii) : option Z :=
  let n := nat_of_ascii c in
  if ((48 <=? n) && (n <=? 57))%nat then Some (Z.of_nat (n - 48)) else None.

Fixpoint number (acc : Z) (l : list ascii) : option Z :=
  match l with
  | [] => Some acc
  | c :: l' =>
      match digit c with
      | Some d => number (10 * acc + d) l'
      | None => None
      end
  end.

(** Days from 1970-01-01 to the civil date [y]-[m]-[d]. *)
Definition daysFromCivil (y m d : Z) : Z :=
  let y' := if m <=? 2 then y - 1 else y in
  let era := y' / 400 in
  let yoe := y' - era * 400 in
  let mp := if m <=? 2 then m + 9 else m - 3 in
  let doy := (153 * mp + 2) / 5 + d - 1 in
  let doe := yoe * 365 + yoe / 4 - yoe / 100 + doy in
  era * 146097 + doe - 719468.

(** An instance of the date reader that the statements take as a
    parameter.  It reads the strings of the format that
    [Date.prototype.toISOString] writes, [YYYY-MM-DDTHH:mm:ss.sssZ], to
    the time value the V8 host gives them: the day may be 1 to 31 in
    every month (a day past the end of the month counts on into the
    next), the hour 00 to 23, or 24 at 24:00:00.000.  Every other string
    it reads as [None], the [NaN] of an invalid date; the host reads
    more formats than this one. *)
Definition getTime (s : string) : option Z :=
  match list_ascii_of_string s with
  | [y1; y2; y3; y4; c1; m1; m2; c2; d1; d2; c3; h1; h2; c4; n1; n2; c5; s1; s2; c6; f1; f2; f3; c7] =>
      if (Ascii.eqb c1 "-" && Ascii.eqb c2 "-" && Ascii.eqb c3 "T" && Ascii.eqb c4 ":"
          && Ascii.eqb c5 ":" && Ascii.eqb c6 "." && Ascii.eqb c7 "Z")%char
      then
        match number 0 [y1; y2; y3; y4], number 0 [m1; m2], number 0 [d1; d2],
              number 0 [h1; h2], number 0 [n1; n2], number 0 [s1; s2], number 0 [f1; f2; f3] with
        | Some y, Some m, Some d, Some h, Some n, Some sec, Some ms =>
            if ((1 <=? m) && (m <=? 12) && (1 <=? d) && (d <=? 31)
                && (n <? 60) && (sec <? 60)
                && ((h <? 24) || ((h =? 24) && (n =? 0) && (sec =? 0) && (ms =? 0))))%Z
            then Some ((((daysFromCivil y m d * 24 + h) * 60 + n) * 60 + sec) * 1000 + ms)%Z
            else None
        | _, _, _, _, _, _, _ => None
        end
      else None
  | _ => None
  end.

End IsoDate.

(** ** What both revisions share *)

(** The [sender] object of a history record or of a proof event. *)
Record Sender := mkSender { name : option string }.

(** [sender?.name] *)
Definition senderName_of (s : option Sender) : option string :=
  match s with
  | Some o => name o
  | None => None
  end.

(** The outcome of [fetch] followed by [res.json()] inside a [try]
    block: something threw before the callback set any state (the
    request was rejected, the body did not parse, the parsed body lacked
    what the callback reads first), the response arrived with [res.ok]
    false, or the body was read. *)
Inductive Fetched (A : Type) : Type :=
| FetchThrew (message : string)
| FetchNotOk (status : nat)
| FetchJson (data : A).
Arguments FetchThrew {A} message.
Arguments FetchNotOk {A} status.
Arguments FetchJson {A} data.

(** A picked [File]; the component reads its name only. *)
Definition File : Type := string.

(** What a callback does besides setting state. *)
Inductive Effect (Command : Type) : Type :=
| Toast (title : string) (description : option string)
| Navigate (path : string)
| ConsoleError (message : string)
| ConsoleLog (message : string)
| Emit (command : Command)
| Disconnect.
Arguments Toast {Command} title description.
Arguments Navigate {Command} path.
Arguments ConsoleError {Command} message.
Arguments ConsoleLog {Command} message.
Arguments Emit {Command} command.
Arguments Disconnect {Command}.

(** The identity context and route of one mounted component:
    [useParams().roomId], the display name and the token read from
    local storage. *)
Record Env := mkEnv {
  paramsRoomId : option string;
  displayName : string;
  token : option string
}.

(** [localStorage.getItem("userName") || "You"] *)
Definition initialDisplayName (userName : option string) : string :=
  Js.orDefault userName "You".

Declare Scope handler_scope.
(** [s |> f |> g]: the statements [f] then [g] run on the state [s]. *)
Notation "s |> f" := (f s) (at level 45, left associativity, only parsing) : handler_scope.
Local Open Scope handler_scope.

(** ** First revision of the component *)

Module RoomV1.

(** [interface Message], with [id?: string]. *)
Record Message := mkMessage {
  id : option string;
  senderName : string;
  text : option string;
  createdAt : string;
  proofUrl : option string
}.

(** An element of [data.messages], read as [msg: any]. *)
Record HistoryRecord := mkHistoryRecord {
  h_id : option string;
  h_senderName : option string;
  h_sender : option Sender;
  h_text : option string;
  h_proofUrl : option string;
  h_fileUrl : option string;
  h_createdAt : option string
}.

(** The payload of [newMessage]: a [Message] whose [createdAt] the
    callback does not rely on. *)
Record MessageEvent := mkMessageEvent {
  e_id : option string;
  e_senderName : string;
  e_text : option string;
  e_createdAt : option string;
  e_proofUrl : option string
}.

(** The payload of [newProof], read as [proof: any]. *)
Record ProofEvent := mkProofEvent {
  p_id : option string;
  p_sender : option Sender;
  p_fileUrl : option string;
  p_createdAt : option string
}.

(** An element of [data.rooms]. *)
Record RoomEntry := mkRoomEntry {
  room_id : string;
  room_title : string
}.

(** The object [handleSendMessage] emits. *)
Record Outgoing := mkOutgoing {
  out_roomId : option string;
  out_senderName : string;
  out_text : string
}.

Inductive Command :=
| JoinRoom (room : option string)
| SendMessage (msg : Outgoing).

Record State := mkState {
  socket : bool;              (* [false] is [null] *)
  messages : list Message;
  input : string;
  file : option File;
  roomTitle : string;
  effects : list (Effect Command)
}.

Definition initialState : State := mkState false [] "" None "" [].

Definition setSocket (v : bool) (s : State) : State :=
  mkState v (messages s) (input s) (file s) (roomTitle s) (effects s).

Definition setMessages (f : list Message -> list Message) (s : State) : State :=
  mkState (socket s) (f (messages s)) (input s) (file s) (roomTitle s) (effects s).

Definition setInput (v : string) (s : State) : State :=
  mkState (socket s) (messages s) v (file s) (roomTitle s) (effects s).

Definition setFile (v : option File) (s : State) : State :=
  mkState (socket s) (messages s) (input s) v (roomTitle s) (effects s).

Definition setRoomTitle (v : string) (s : State) : State :=
  mkState (socket s) (messages s) (input s) (file s) v (effects s).

Definition perform (e : Effect Command) (s : State) : State :=
  mkState (socket s) (messages s) (input s) (file s) (roomTitle s) (effects s ++ [e])%list.

Definition toast (t : string) (d : option string) : State -> State := perform (Toast t d).
Definition navigate (path : string) : State -> State := perform (Navigate path).
Definition consoleError (e : string) : State -> State := perform (ConsoleError e).
Definition emit (c : Command) : State -> State := perform (Emit c).

(** [a === b] on two ids, either of which may be [undefined]. *)
Definition sameId (a b : option string) : bool :=
  match a, b with
  | Some x, Some y => String.eqb x y
  | None, None => true
  | _, _ => false
  end.

(** [fetchRoom], from the point where the request has settled: the
    room is looked up in the list of all rooms. *)
Definition fetchRoom (env : Env) (r : Fetched (list RoomEntry)) (s : State) : State :=
  let failed (message : string) :=
    s |> toast "Error" (Some message) |> navigate "/rooms" in
  match r with
  | FetchThrew message => failed message
  | FetchNotOk _ => failed "Failed to fetch rooms"
  | FetchJson rooms =>
      match find (fun r => sameId (Some (room_id r)) (paramsRoomId env)) rooms with
      | Some room => s |> setRoomTitle (room_title room)
      | None => failed "Room not found"
      end
  end.

Definition normalize (now : string) (msg : HistoryRecord) : Message :=
  {| id := h_id msg;
     senderName := Js.orDefault (Js.or (h_senderName msg) (senderName_of (h_sender msg))) "Unknown";
     text := h_text msg;
     proofUrl := Js.or (h_proofUrl msg) (h_fileUrl msg);
     createdAt := Js.orDefault (h_createdAt msg) now |}.

(** [fetchMessages], from the point where the request has settled:
    the mapped list is set as it is. *)
Definition fetchMessages (clock : nat -> string) (r : Fetched (list HistoryRecord))
           (s : State) : State :=
  match r with
  | FetchThrew message => s |> consoleError message
  | FetchNotOk _ => s |> consoleError "Failed to fetch messages"
  | FetchJson data => s |> setMessages (fun _ => Js.mapAt normalize clock 0 data)
  end.

(** The token check of the first effect, and the socket effect, which
    emits [joinRoom] at once. *)
Definition mount (env : Env) (s : State) : State :=
  if Js.truthy (token env)
  then s |> emit (JoinRoom (paramsRoomId env)) |> setSocket true
  else s |> toast "Unauthorized" (Some "Please log in.") |> navigate "/login".

Definition unmount (env : Env) (s : State) : State :=
  if Js.truthy (token env) then s |> perform Disconnect else s.

Definition onConnect (s : State) : State :=
  s |> perform (ConsoleLog "Socket connected:").

Definition appendUnlessPresent (x : Message) (prev : list Message) : list Message :=
  if existsb (fun m => sameId (id m) (id x)) prev then prev else (prev ++ [x])%list.

Definition onNewMessage (now : string) (msg : MessageEvent) (s : State) : State :=
  let msg' :=
    {| id := e_id msg;
       senderName := e_senderName msg;
       text := e_text msg;
       createdAt := Js.orDefault (e_createdAt msg) now;
       proofUrl := e_proofUrl msg |} in
  s |> setMessages (appendUnlessPresent msg').

Definition onNewProof (env : Env) (now : string) (proof : ProofEvent) (s : State) : State :=
  let newMsg :=
    {| id := p_id proof;
       senderName := Js.orDefault (senderName_of (p_sender proof)) (displayName env);
       text := None;
       createdAt := Js.orDefault (p_createdAt proof) now;
       proofUrl := p_fileUrl proof |} in
  s |> setMessages (appendUnlessPresent newMsg).

Definition handleSendMessage (env : Env) (s : State) : State :=
  if negb (Js.nonBlank (input s)) || negb (socket s) then s
  else
    let msg := mkOutgoing (paramsRoomId env) (displayName env) (input s) in
    s |> emit (SendMessage msg) |> setInput "".

(** The guard of [handleSendFile]: is an upload started? *)
Definition handleSendFile (env : Env) (s : State) : bool :=
  Js.defined (file s) && Js.truthy (token env).

(** [handleSendFile] after its [await]; the body of the response is
    not read. *)
Definition handleSendFileUploaded (r : Fetched unit) (s : State) : State :=
  let failed (message : string) :=
    s |> consoleError message
      |> toast "Error sending file" (Some message) in
  match r with
  | FetchThrew message => failed message
  | FetchNotOk _ => failed "Failed to upload file"
  | FetchJson _ => s |> setFile None |> toast "File sent!" None
  end.

Inductive Event :=
| Mount
| Unmount
| BackClick
| RoomFetched (r : Fetched (list RoomEntry))
| MessagesFetched (clock : nat -> string) (r : Fetched (list HistoryRecord))
| Connect
| NewMessage (now : string) (msg : MessageEvent)
| NewProof (now : string) (proof : ProofEvent)
| InputChange (value : string)
| FileChange (files : option (list File))
| SendMessageClick
| UploadSettled (r : Fetched unit).

Definition step (env : Env) (s : State) (e : Event) : State :=
  match e with
  | Mount => mount env s
  | Unmount => unmount env s
  | BackClick => navigate "/rooms" s
  | RoomFetched r => fetchRoom env r s
  | MessagesFetched clock r => fetchMessages clock r s
  | Connect => onConnect s
  | NewMessage now msg => onNewMessage now msg s
  | NewProof now proof => onNewProof env now proof s
  | InputChange v => setInput v s
  | FileChange (Some files) => setFile (hd_error files) s
  | FileChange None => s
  | SendMessageClick => handleSendMessage env s
  | UploadSettled r => handleSendFileUploaded r s
  end.

Definition run (env : Env) (s : State) (es : list Event) : State :=
  fold_left (step env) es s.

End RoomV1.

(** ** Second revision of the component *)

Module RoomV2.

(** [interface Message] *)
Record Message := mkMessage {
  id : string;
  senderName : string;
  text : option string;
  proofUrl : option string;
  createdAt : string;
  roomId : option string
}.

(** What the menu callback puts into [name]: a string, or, for an
    entry that is no string and has no [name] that is truthy, the entry
    itself (given here by its [name]). *)
Inductive MenuName :=
| NameString (s : string)
| NameEntry (entry_name : option string).

(** [interface MenuItem]; the fields are [id] and [name] in the
    source.  [price] is a floating point number that only the
    displayed total reads; it is left out. *)
Record MenuItem := mkMenuItem {
  menu_id : string;
  menu_name : MenuName
}.

(** An element of [room.menu]: [null], on which reading [item.name]
    throws a TypeError with the given message; a string; or another
    value, with its [name] if it has one. *)
Inductive MenuEntry :=
| EntryNull (message : string)
| EntryString (item : string)
| EntryObject (item_name : option string).

(** [room.menu]: missing or falsy; an array; or another truthy value,
    on which calling [map] throws a TypeError with the given message. *)
Inductive Menu :=
| MenuMissing
| MenuArray (entries : list MenuEntry)
| MenuOther (message : string).

(** [data.room] of the room response. *)
Record RoomData := mkRoomData {
  title : string;
  menu : Menu
}.

(** An element of [data.messages], read as [msg: any]. *)
Record HistoryRecord := mkHistoryRecord {
  h_id : string;
  h_senderName : option string;
  h_sender : option Sender;
  h_text : option string;
  h_proofUrl : option string;
  h_fileUrl : option string;
  h_createdAt : option string
}.

(** [data.proof] of the upload response. *)
Record ProofData := mkProofData {
  proof_id : string;
  proof_fileUrl : string;
  proof_createdAt : string
}.

(** What the component emits on the socket. *)
Inductive Command :=
| JoinRoom (room : option string) (user : string)
| SendMessage (msg : Message)
| SendProof (msg : Message).

(** The [useState] cells, and the effects performed so far. *)
Record State := mkState {
  socket : bool;              (* [false] is [null] *)
  messages : list Message;
  input : string;
  file : option File;
  roomTitle : string;
  menuItems : list MenuItem;
  onlineUsers : list string;
  effects : list (Effect Command)
}.

Definition initialState : State :=
  mkState false [] "" None "" [] [] [].

Definition setSocket (v : bool) (s : State) : State :=
  mkState v (messages s) (input s) (file s) (roomTitle s) (menuItems s) (onlineUsers s) (effects s).

(** [setMessages(prev => f(prev))] *)
Definition setMessages (f : list Message -> list Message) (s : State) : State :=
  mkState (socket s) (f (messages s)) (input s) (file s) (roomTitle s) (menuItems s)
          (onlineUsers s) (effects s).

Definition setInput (v : string) (s : State) : State :=
  mkState (socket s) (messages s) v (file s) (roomTitle s) (menuItems s) (onlineUsers s) (effects s).

Definition setFile (v : option File) (s : State) : State :=
  mkState (socket s) (messages s) (input s) v (roomTitle s) (menuItems s) (onlineUsers s) (effects s).

Definition setRoomTitle (v : string) (s : State) : State :=
  mkState (socket s) (messages s) (input s) (file s) v (menuItems s) (onlineUsers s) (effects s).

Definition setMenuItems (v : list MenuItem) (s : State) : State :=
  mkState (socket s) (messages s) (input s) (file s) (roomTitle s) v (onlineUsers s) (effects s).

Definition setOnlineUsers (v : list string) (s : State) : State :=
  mkState (socket s) (messages s) (input s) (file s) (roomTitle s) (menuItems s) v (effects s).

Definition perform (e : Effect Command) (s : State) : State :=
  mkState (socket s) (messages s) (input s) (file s) (roomTitle s) (menuItems s)
          (onlineUsers s) (effects s ++ [e])%list.

Definition toast (t : string) (d : option string) : State -> State := perform (Toast t d).
Definition navigate (path : string) : State -> State := perform (Navigate path).
Definition consoleError (e : string) : State -> State := perform (ConsoleError e).
Definition emit (c : Command) : State -> State := perform (Emit c).

(** *** Room information and earlier messages *)

(** [item.name || item] *)
Definition nameOf (e : MenuEntry) : MenuName :=
  match e with
  | EntryNull _ => NameEntry None
  | EntryString item => NameString item
  | EntryObject n =>
      match n with
      | Some x => if String.eqb x "" then NameEntry n else NameString x
      | None => NameEntry n
      end
  end.

(** The menu callback of [fetchRoom] mapped over the entries from
    [index] on: [id: index.toString()], [name: item.name || item].  The
    result is the list of items, or the message of the TypeError that
    the first [null] entry throws. *)
Fixpoint menuFrom (index : nat) (l : list MenuEntry) : string + list MenuItem :=
  match l with
  | [] => inr []
  | EntryNull message :: _ => inl message
  | e :: l' =>
      match menuFrom (S index) l' with
      | inl message => inl message
      | inr items => inr (mkMenuItem (Js.toString index) (nameOf e) :: items)
      end
  end.

(** [(room.menu || []).map(...)] *)
Definition menuItemsOf (m : Menu) : string + list MenuItem :=
  match m with
  | MenuMissing => inr []
  | MenuArray entries => menuFrom 0 entries
  | MenuOther message => inl message
  end.

(** [fetchRoom], from the point where the request has settled.  The
    title is set before the menu is mapped, so an error in the menu
    reaches the [catch] block with the title set. *)
Definition fetchRoom (r : Fetched RoomData) (s : State) : State :=
  let failed (s0 : State) (message : string) :=
    s0 |> toast "Error" (Some message) |> navigate "/rooms" in
  match r with
  | FetchThrew message => failed s message
  | FetchNotOk _ => failed s "Failed to fetch room"
  | FetchJson room =>
      let s1 := s |> setRoomTitle (title room) in
      match menuItemsOf (menu room) with
      | inr items => s1 |> setMenuItems items
      | inl message => failed s1 message
      end
  end.

(** The callback that [fetchMessages] maps over [data.messages];
    [now] is [new Date().toISOString()]. *)
Definition normalize (now : string) (msg : HistoryRecord) : Message :=
  {| id := h_id msg;
     senderName := Js.orDefault (Js.or (h_senderName msg) (senderName_of (h_sender msg))) "Unknown";
     text := h_text msg;
     proofUrl := Js.or (h_proofUrl msg) (h_fileUrl msg);
     createdAt := Js.orDefault (h_createdAt msg) now;
     roomId := None |}.

Section Dates.
(** [s => new Date(s).getTime()]; [None] is [NaN]. *)
Variable getTime : string -> option Z.

(** The comparator given to [sort]: the difference of the two time
    values, [NaN] when one of them is. *)
Definition byCreatedAt (a b : Message) : option Z :=
  match getTime (createdAt a), getTime (createdAt b) with
  | Some x, Some y => Some (x - y)%Z
  | _, _ => None
  end.

(** The list [fetchMessages] gives to [setMessages]. *)
Definition loadedMessages (clock : nat -> string) (data : list HistoryRecord) : list Message :=
  Js.sort byCreatedAt (Js.mapAt normalize clock 0 data).

(** [fetchMessages], from the point where the request has settled. *)
Definition fetchMessages (clock : nat -> string) (r : Fetched (list HistoryRecord))
           (s : State) : State :=
  match r with
  | FetchThrew message => s |> consoleError message
  | FetchNotOk _ => s |> consoleError "Failed to fetch messages"
  | FetchJson data => s |> setMessages (fun _ => loadedMessages clock data)
  end.
End Dates.

(** The two effects that run when the component mounts: the token
    check in front of the requests, and the socket set-up. *)
Definition mount (env : Env) (s : State) : State :=
  if Js.truthy (token env)
  then s |> setSocket true
  else s |> toast "Unauthorized" (Some "Please log in.") |> navigate "/login".

(** The clean-up of the socket effect; without a token the effect has
    made no socket and has no clean-up. *)
Definition unmount (env : Env) (s : State) : State :=
  if Js.truthy (token env) then s |> perform Disconnect else s.

(** *** Socket callbacks *)

Definition onConnect (env : Env) (s : State) : State :=
  s |> perform (ConsoleLog "Socket connected:")
    |> emit (JoinRoom (paramsRoomId env) (displayName env)).

Definition onConnectError (err : string) (s : State) : State :=
  s |> consoleError err.

Definition onUserList (env : Env) (users : list string) (s : State) : State :=
  let filtered := filter (fun u => negb (String.eqb u (displayName env))) users in
  s |> setOnlineUsers filtered.

Definition onUserJoined (env : Env) (n : string) (s : State) : State :=
  if negb (String.eqb n (displayName env))
  then s |> toast (n ++ " joined the room") None
  else s.

Definition onUserLeft (env : Env) (n : string) (s : State) : State :=
  if negb (String.eqb n (displayName env))
  then s |> toast (n ++ " left the room") None
  else s.

(** [prev.some((m) => m.id === x.id) ? prev : [...prev, x]] *)
Definition appendUnlessPresent (x : Message) (prev : list Message) : list Message :=
  if existsb (fun m => String.eqb (id m) (id x)) prev then prev else (prev ++ [x])%list.

Definition onReceiveMessage (env : Env) (msg : Message) (s : State) : State :=
  if String.eqb (senderName msg) (displayName env) then s
  else s |> setMessages (appendUnlessPresent msg).

Definition onReceiveProof (proof : Message) (s : State) : State :=
  s |> setMessages (appendUnlessPresent proof).

(** *** Sending *)

(** The message [handleSend] builds from the input; [uuid] is
    [crypto.randomUUID()] and [now] is [new Date().toISOString()]. *)
Definition textMessage (env : Env) (uuid now : string) (s : State) : Message :=
  {| id := uuid;
     senderName := displayName env;
     text := Some (Js.trim (input s));
     proofUrl := None;
     createdAt := now;
     roomId := paramsRoomId env |}.

(** [handleSend] up to its [await]: the guard and the text branch.
    The second component is the file whose upload is then in flight,
    if any. *)
Definition handleSend (env : Env) (uuid now : string) (s : State) : State * option File :=
  if negb (socket s) || (negb (Js.nonBlank (input s)) && negb (Js.defined (file s)))
  then (s, None)
  else
    let s1 :=
      if Js.nonBlank (input s) then
        let msg := textMessage env uuid now s in
        s |> setMessages (fun prev => (prev ++ [msg])%list)
          |> emit (SendMessage msg)
          |> setInput ""
      else s in
    (s1, file s).

Definition proofMessage (env : Env) (data : ProofData) : Message :=
  {| id := proof_id data;
     senderName := displayName env;
     text := None;
     proofUrl := Some (proof_fileUrl data);
     createdAt := proof_createdAt data;
     roomId := paramsRoomId env |}.

(** [handleSend] after its [await], once the upload has settled; [s]
    is the state at that time. *)
Definition handleSendUploaded (env : Env) (r : Fetched ProofData) (s : State) : State :=
  let failed (message : string) :=
    s |> consoleError message
      |> toast "Error sending file" (Some message) in
  match r with
  | FetchThrew message => failed message
  | FetchNotOk _ => failed "Failed to upload file"
  | FetchJson data =>
      let proofMsg := proofMessage env data in
      s |> emit (SendProof proofMsg)
        |> setMessages (appendUnlessPresent proofMsg)
        |> setFile None
        |> toast "File sent!" None
  end.

(** One call of [handleSend] with nothing else happening between the
    click and the settling of the upload; [upload] is the outcome of
    the request for the attached file. *)
Definition handleSendAwaited (env : Env) (uuid now : string)
           (upload : File -> Fetched ProofData) (s : State) : State :=
  match handleSend env uuid now s with
  | (s1, Some f) => handleSendUploaded env (upload f) s1
  | (s1, None) => s1
  end.

(** *** The component as a transition system *)

Inductive Event :=
| Mount
| Unmount
| BackClick
| RoomFetched (r : Fetched RoomData)
| MessagesFetched (clock : nat -> string) (r : Fetched (list HistoryRecord))
| Connect
| ConnectError (err : string)
| UserList (users : list string)
| UserJoined (user : string)
| UserLeft (user : string)
| ReceiveMessage (msg : Message)
| ReceiveProof (proof : Message)
| InputChange (value : string)
| FileChange (files : option (list File))
| FileClear
| Send (uuid now : string)
| UploadSettled (r : Fetched ProofData).

Definition step (getTime : string -> option Z) (env : Env) (s : State) (e : Event) : State :=
  match e with
  | Mount => mount env s
  | Unmount => unmount env s
  | BackClick => navigate "/rooms" s
  | RoomFetched r => fetchRoom r s
  | MessagesFetched clock r => fetchMessages getTime clock r s
  | Connect => onConnect env s
  | ConnectError err => onConnectError err s
  | UserList users => onUserList env users s
  | UserJoined n => onUserJoined env n s
  | UserLeft n => onUserLeft env n s
  | ReceiveMessage msg => onReceiveMessage env msg s
  | ReceiveProof proof => onReceiveProof proof s
  | InputChange v => setInput v s
  | FileChange (Some files) => setFile (hd_error files) s
  | FileChange None => s
  | FileClear => setFile None s
  | Send uuid now => fst (handleSend env uuid now s)
  | UploadSettled r => handleSendUploaded env r s
  end.

Definition run (getTime : string -> option Z) (env : Env) (s : State) (es : list Event) : State :=
  fold_left (step getTime env) es s.

End RoomV2.

(** ** Notions the statements use *)

Import RoomV2.

(** The ids of a log, in log order. *)
Definition ids (log : list Message) : list string := map id log.


(** The time stamp [a] is not later than [b]: both time values exist
    and are in order.  A comparison with [NaN] is false. *)
Definition notLaterAt (getTime : string -> option Z) (a b : string) : Prop :=
  match getTime a, getTime b with
  | Some x, Some y => (x <= y)%Z
  | _, _ => False
  end.

Definition notLater (getTime : string -> option Z) (a b : Message) : Prop :=
  notLaterAt getTime (createdAt a) (createdAt b).

(** A log is ascending by [createdAt] when every entry is not later
    than every entry behind it. *)
Definition ascending (getTime : string -> option Z) (log : list Message) : Prop :=
  StronglySorted (notLater getTime) log.

(** The same for a log of the first revision. *)
Definition v1Ascending (getTime : string -> option Z) (log : list RoomV1.Message) : Prop :=
  StronglySorted
    (fun a b => notLaterAt getTime (RoomV1.createdAt a) (RoomV1.createdAt b)) log.

(** Every [createdAt] of the list is a date the host can read. *)
Definition datesValid (getTime : string -> option Z) (log : list Message) : bool :=
  forallb (fun m => Js.defined (getTime (createdAt m))) log.

(** The entry's [createdAt] is readable and has the time value [t]. *)
Definition atTime (getTime : string -> option Z) (t : Z) (m : Message) : bool :=
  match getTime (createdAt m) with
  | Some x => (x =? t)%Z
  | None => false
  end.

(** The commands emitted so far, in order. *)
Fixpoint commands {C : Type} (es : list (Effect C)) : list C :=
  match es with
  | [] => []
  | Emit c :: es' => c :: commands es'
  | _ :: es' => commands es'
  end.

(** The notices shown so far (toast titles), in order. *)
Fixpoint notices {C : Type} (es : list (Effect C)) : list string :=
  match es with
  | [] => []
  | Toast t _ :: es' => t :: notices es'
  | _ :: es' => notices es'
  end.

(** The navigations so far, in order. *)
Fixpoint navigations {C : Type} (es : list (Effect C)) : list string :=
  match es with
  | [] => []
  | Navigate p :: es' => p :: navigations es'
  | _ :: es' => navigations es'
  end.

(** A request that did not deliver a body, and the message of the
    error the [catch] block then sees. *)
Definition failed {A : Type} (r : Fetched A) : bool :=
  match r with
  | FetchJson _ => false
  | _ => true
  end.

Definition errorMessage {A : Type} (notOk : string) (r : Fetched A) : string :=
  match r with
  | FetchThrew message => message
  | _ => notOk
  end.

(** No string occurs twice in the list. *)
Fixpoint distinct (l : list string) : bool :=
  match l with
  | [] => true
  | x :: l' => negb (existsb (String.eqb x) l') && distinct l'
  end.

(** What the component relies on from its surroundings at an event in
    the state [s]: the ids of a history response are distinct, and the
    id that [crypto.randomUUID()] gives to a text that is sent is not
    in the log. *)
Definition eventAdmissible (s : State) (e : Event) : bool :=
  match e with
  | MessagesFetched _ (FetchJson data) => distinct (map h_id data)
  | Send uuid _ =>
      negb (socket s && Js.nonBlank (input s))
      || negb (existsb (String.eqb uuid) (ids (messages s)))
  | _ => true
  end.

Fixpoint admissible (getTime : string -> option Z) (env : Env) (s : State)
         (es : list Event) : bool :=
  match es with
  | [] => true
  | e :: es' => eventAdmissible s e && admissible getTime env (step getTime env s e) es'
  end.

(** ** The sort *)

Section SortFacts.
Context {A : Type}.
Variable compareFn : A -> A -> option Z.

Lemma insert_perm (x : A) (l : list A) :
  Permutation (x :: l) (Js.insert compareFn x l).
Proof.
  induction l as [|y l IH]; simpl.
  - apply Permutation_refl.
  - destruct (Js.sortCompare compareFn x y <=? 0)%Z.
    + apply Permutation_refl.
    + eapply perm_trans; [apply perm_swap|].
      apply perm_skip, IH.
Qed.

Lemma sort_perm (l : list A) : Permutation l (Js.sort compareFn l).
Proof.
  induction l as [|x l IH]; simpl.
  - constructor.
  - eapply perm_trans; [apply perm_skip, IH|].
    apply insert_perm.
Qed.

Lemma sort_length (l : list A) : length (Js.sort compareFn l) = length l.
Proof. symmetry. apply Permutation_length, sort_perm. Qed.

Lemma sort_In (x : A) (l : list A) : In x (Js.sort compareFn l) <-> In x l.
Proof.
  split; apply Permutation_in; [apply Permutation_sym|]; apply sort_perm.
Qed.
End SortFacts.

Section CreatedAtOrder.
Variable getTime : string -> option Z.

Lemma datesValid_Forall (l : list Message) :
  datesValid getTime l = true <->
  Forall (fun m => exists t, getTime (createdAt m) = Some t) l.
Proof.
  unfold datesValid. rewrite forallb_forall, Forall_forall.
  split; intros H m Hm; specialize (H m Hm).
  - destruct (getTime (createdAt m)) as [t|]; [eauto|discriminate].
  - destruct H as [t ->]. reflexivity.
Qed.

Lemma notLater_trans (a b c : Message) :
  notLater getTime a b -> notLater getTime b c -> notLater getTime a c.
Proof.
  unfold notLater, notLaterAt.
  destruct (getTime (createdAt a)), (getTime (createdAt b)), (getTime (createdAt c));
    try tauto; lia.
Qed.

(** On readable dates the comparator decides [notLater], and is total. *)
Lemma compare_le (a b : Message) ta tb :
  getTime (createdAt a) = Some ta -> getTime (createdAt b) = Some tb ->
  (Js.sortCompare (byCreatedAt getTime) a b <=? 0)%Z = true -> notLater getTime a b.
Proof.
  unfold Js.sortCompare, byCreatedAt, notLater, notLaterAt. intros -> ->.
  rewrite Z.leb_le. lia.
Qed.

Lemma compare_gt (a b : Message) ta tb :
  getTime (createdAt a) = Some ta -> getTime (createdAt b) = Some tb ->
  (Js.sortCompare (byCreatedAt getTime) a b <=? 0)%Z = false -> notLater getTime b a.
Proof.
  unfold Js.sortCompare, byCreatedAt, notLater, notLaterAt. intros -> ->.
  rewrite Z.leb_gt. lia.
Qed.

Lemma insert_ascending (x : Message) (l : list Message) :
  (exists t, getTime (createdAt x) = Some t) ->
  Forall (fun m => exists t, getTime (createdAt m) = Some t) l ->
  ascending getTime l ->
  ascending getTime (Js.insert (byCreatedAt getTime) x l).
Proof.
  unfold ascending. intros [tx Hx] Hl Hs.
  induction l as [|y l IH]; simpl.
  - repeat constructor.
  - inversion Hl as [|? ? [ty Hy] Hl']; subst.
    inversion Hs as [|? ? Hs' Hyl]; subst.
    destruct (Js.sortCompare (byCreatedAt getTime) x y <=? 0)%Z eqn:E.
    + pose proof (compare_le x y tx ty Hx Hy E) as Hxy.
      constructor; [constructor; assumption|].
      constructor; [assumption|].
      eapply Forall_impl; [|exact Hyl].
      intros z Hz. eapply notLater_trans; eassumption.
    + pose proof (compare_gt x y tx ty Hx Hy E) as Hyx.
      constructor; [apply IH; assumption|].
      rewrite Forall_forall. intros z Hz.
      apply (Permutation_in _ (Permutation_sym (insert_perm _ x l))) in Hz.
      destruct Hz as [<-|Hz]; [assumption|].
      rewrite Forall_forall in Hyl. auto.
Qed.

Lemma sort_ascending (l : list Message) :
  Forall (fun m => exists t, getTime (createdAt m) = Some t) l ->
  ascending getTime (Js.sort (byCreatedAt getTime) l).
Proof.
  induction 1 as [|x l Hx Hl IH]; simpl.
  - constructor.
  - apply insert_ascending; [assumption| |assumption].
    rewrite Forall_forall in *. intros z Hz.
    apply Hl. exact (proj1 (sort_In (byCreatedAt getTime) z l) Hz).
Qed.
(** The sort is stable: the entries of one time value stay in their
    order of arrival.  An ascending, stable rearrangement of a list is
    unique, so on readable dates the model agrees with every stable
    sort. *)
Lemma insert_stable (t : Z) (x : Message) (l : list Message) :
  filter (atTime getTime t) (Js.insert (byCreatedAt getTime) x l)
  = filter (atTime getTime t) (x :: l).
Proof.
  induction l as [|y l IH]; [reflexivity|].
  cbn [Js.insert].
  destruct (Js.sortCompare (byCreatedAt getTime) x y <=? 0)%Z eqn:E; [reflexivity|].
  cbn [filter] in *. rewrite IH.
  apply Z.leb_gt in E. unfold Js.sortCompare, byCreatedAt in E.
  unfold atTime.
  destruct (getTime (createdAt x)) as [tx|], (getTime (createdAt y)) as [ty|];
    try (exfalso; lia); try reflexivity.
  destruct (tx =? t)%Z eqn:Ex, (ty =? t)%Z eqn:Ey; try reflexivity.
  apply Z.eqb_eq in Ex, Ey. lia.
Qed.

Lemma sort_stable (t : Z) (l : list Message) :
  filter (atTime getTime t) (Js.sort (byCreatedAt getTime) l)
  = filter (atTime getTime t) l.
Proof.
  induction l as [|x l IH]; [reflexivity|].
  cbn [Js.sort fold_right]. rewrite insert_stable.
  cbn [filter]. fold (Js.sort (byCreatedAt getTime) l). rewrite IH. reflexivity.
Qed.
End CreatedAtOrder.

(** ** Normalizing history records *)

Lemma mapAt_length {A B : Type} (f : string -> A -> B) clock (l : list A) :
  forall i, length (Js.mapAt f clock i l) = length l.
Proof. induction l; simpl; intros; [|rewrite IHl]; reflexivity. Qed.

Lemma mapAt_nth_error {A B : Type} (f : string -> A -> B) clock (l : list A) :
  forall i k, nth_error (Js.mapAt f clock i l) k = option_map (f (clock (i + k))) (nth_error l k).
Proof.
  induction l as [|x l IH]; intros i k.
  - destruct k; reflexivity.
  - destruct k; simpl.
    + rewrite Nat.add_0_r. reflexivity.
    + rewrite IH. replace (S i + k) with (i + S k) by lia. reflexivity.
Qed.

Lemma mapAt_In {A B : Type} (f : string -> A -> B) clock (l : list A) (y : B) :
  In y (Js.mapAt f clock 0 l) ->
  exists k x, nth_error l k = Some x /\ y = f (clock k) x.
Proof.
  intros Hy. apply In_nth_error in Hy. destruct Hy as [k Hk].
  rewrite mapAt_nth_error in Hk. simpl in Hk.
  destruct (nth_error l k) as [x|] eqn:E; [|discriminate].
  injection Hk as <-. eauto.
Qed.

Lemma mapAt_ids clock (data : list HistoryRecord) :
  forall i, ids (Js.mapAt normalize clock i data) = map h_id data.
Proof.
  induction data as [|r data IH]; simpl; intros; [|unfold ids in IH; rewrite IH]; reflexivity.
Qed.

(** The canonical shape of a loaded record, field by field: the
    attachment is [proofUrl], or [fileUrl] when [proofUrl] is missing or
    empty; the sender is [senderName], else [sender.name], else
    ["Unknown"]; [createdAt] is kept, or is the clock reading [now] when
    it is missing or empty. *)
Definition canonicalShape (rProofUrl rFileUrl rSenderName rSenderOfName rCreatedAt : option string)
           (now : string) (mProofUrl : option string) (mSenderName mCreatedAt : string) : Prop :=
  (Js.truthy rProofUrl = true -> mProofUrl = rProofUrl) /\
  (Js.truthy rProofUrl = false -> mProofUrl = rFileUrl) /\
  (Js.truthy rSenderName = true -> Some mSenderName = rSenderName) /\
  (Js.truthy rSenderName = false -> Js.truthy rSenderOfName = true ->
   Some mSenderName = rSenderOfName) /\
  (Js.truthy rSenderName = false -> Js.truthy rSenderOfName = false ->
   mSenderName = "Unknown") /\
  (Js.truthy rCreatedAt = true -> Some mCreatedAt = rCreatedAt) /\
  (Js.truthy rCreatedAt = false -> mCreatedAt = now).

Lemma orDefault_truthy (a : option string) (d : string) :
  Js.truthy a = true -> Some (Js.orDefault a d) = a.
Proof.
  destruct a as [s|]; simpl; [|discriminate].
  destruct (String.eqb s ""); [discriminate|reflexivity].
Qed.

Lemma orDefault_falsy (a : option string) (d : string) :
  Js.truthy a = false -> Js.orDefault a d = d.
Proof.
  destruct a as [s|]; simpl; [|reflexivity].
  destruct (String.eqb s ""); [reflexivity|discriminate].
Qed.

Lemma canonicalShape_fallbacks (p f sn so c : option string) (now : string) :
  canonicalShape p f sn so c now
    (Js.or p f) (Js.orDefault (Js.or sn so) "Unknown") (Js.orDefault c now).
Proof.
  unfold canonicalShape, Js.or.
  repeat split.
  - intros ->. reflexivity.
  - intros ->. reflexivity.
  - intros H. rewrite H. apply orDefault_truthy, H.
  - intros H1 H2. rewrite H1. apply orDefault_truthy, H2.
  - intros H1 H2. rewrite H1. apply orDefault_falsy, H2.
  - apply orDefault_truthy.
  - apply orDefault_falsy.
Qed.

(** C9: every history record is brought into the canonical Message
    shape when the history is loaded.  For the record at index [k] of
    the response, the loaded log holds its normal form, whose
    attachment is the record's [proofUrl] or else its [fileUrl], whose
    sender is [senderName], else [sender.name], else ["Unknown"], and
    whose [createdAt] is the record's or else a time stamp read from the
    clock; the log holds nothing besides these.  Both revisions do so. *)
Theorem history_normalized_at_load (getTime : string -> option Z) (clock : nat -> string) :
  (forall (data : list HistoryRecord) (s : State),
      let log := messages (fetchMessages getTime clock (FetchJson data) s) in
      length log = length data /\
      forall k r, nth_error data k = Some r ->
        exists m, In m log /\ m = normalize (clock k) r /\
          id m = h_id r /\ text m = h_text r /\
          canonicalShape (h_proofUrl r) (h_fileUrl r) (h_senderName r)
            (senderName_of (h_sender r)) (h_createdAt r) (clock k)
            (proofUrl m) (senderName m) (createdAt m)) /\
  (forall (data : list RoomV1.HistoryRecord) (s : RoomV1.State),
      let log := RoomV1.messages (RoomV1.fetchMessages clock (FetchJson data) s) in
      length log = length data /\
      forall k r, nth_error data k = Some r ->
        exists m, nth_error log k = Some m /\
          RoomV1.id m = RoomV1.h_id r /\ RoomV1.text m = RoomV1.h_text r /\
          canonicalShape (RoomV1.h_proofUrl r) (RoomV1.h_fileUrl r) (RoomV1.h_senderName r)
            (senderName_of (RoomV1.h_sender r)) (RoomV1.h_createdAt r) (clock k)
            (RoomV1.proofUrl m) (RoomV1.senderName m) (RoomV1.createdAt m)).
Proof.
  split; intros data s; simpl.
  - split.
    + unfold loadedMessages. rewrite sort_length. apply mapAt_length.
    + intros k r Hk. exists (normalize (clock k) r).
      split; [|split; [reflexivity|split; [reflexivity|split; [reflexivity|]]];
               apply canonicalShape_fallbacks].
      unfold loadedMessages. apply sort_In.
      apply nth_error_In with (n := k).
      rewrite mapAt_nth_error, Hk. reflexivity.
  - split; [apply mapAt_length|].
    intros k r Hk. exists (RoomV1.normalize (clock k) r).
    split; [rewrite mapAt_nth_error, Hk; reflexivity|].
    split; [reflexivity|split; [reflexivity|]].
    apply canonicalShape_fallbacks.
Qed.

(** A response of two records: the first has its attachment under
    [fileUrl], its sender under [sender.name] and no [createdAt]. *)
Definition sampleHistory : list HistoryRecord :=
  [ mkHistoryRecord "m1" None (Some (mkSender (Some "Bea"))) None None (Some "/p/1.png") None;
    mkHistoryRecord "m2" (Some "Al") None (Some "hi") None None (Some "2024-01-01T00:00:01.000Z") ].

Definition sampleClock (k : nat) : string := "2024-01-01T00:00:09.000Z".

Lemma history_normalized_at_load_witness :
  exists m,
    In m (messages (fetchMessages IsoDate.getTime sampleClock (FetchJson sampleHistory) initialState)) /\
    proofUrl m = Some "/p/1.png" /\ senderName m = "Bea" /\
    createdAt m = "2024-01-01T00:00:09.000Z".
Proof.
  destruct (history_normalized_at_load IsoDate.getTime sampleClock) as [H _].
  destruct (H sampleHistory initialState) as [_ H0].
  destruct (H0 0%nat _ eq_refl) as [m [Hin [_ [_ [_ C]]]]].
  destruct C as [_ [Hp [_ [Hs [_ [_ Hc]]]]]].
  exists m. split; [exact Hin|].
  split; [exact (Hp eq_refl)|].
  split; [|exact (Hc eq_refl)].
  specialize (Hs eq_refl eq_refl). injection Hs as Hs. exact Hs.
Defined.

(** ** Order of the loaded history *)

(** Three records; the second has a [createdAt] that is not a date. *)
Definition unreadableHistory : list HistoryRecord :=
  [ mkHistoryRecord "a" (Some "Al") None (Some "three") None None (Some "2024-01-01T00:00:03.000Z");
    mkHistoryRecord "b" (Some "Bea") None (Some "when") None None (Some "not a date");
    mkHistoryRecord "c" (Some "Cy") None (Some "one") None None (Some "2024-01-01T00:00:01.000Z") ].

(** The sort leaves the three where they were: every comparison with
    the unreadable date is [NaN], which counts as equal. *)
Example unreadable_history_order :
  ids (loadedMessages IsoDate.getTime sampleClock unreadableHistory) = ["a"; "b"; "c"].
Proof. vm_compute. reflexivity. Qed.

(** The records of [shuffledHistory] as the first revision reads them. *)
Definition v1ShuffledHistory : list RoomV1.HistoryRecord :=
  [ RoomV1.mkHistoryRecord (Some "h3") (Some "Al") None (Some "three") None None
                           (Some "2024-01-01T00:00:03.000Z");
    RoomV1.mkHistoryRecord (Some "h1") (Some "Bea") None (Some "one") None None
                           (Some "2024-01-01T00:00:01.000Z");
    RoomV1.mkHistoryRecord (Some "h2") (Some "Cy") None (Some "two") None None
                           (Some "2024-01-01T00:00:02.000Z") ].

(** C4, as stated, fails.  In the second revision, with a [createdAt]
    that is not a date in the response, the loaded log is not
    ascending: the entry of 00:00:03 stays in front of the entry of
    00:00:01.  In the first revision the log is the response in its
    order of arrival, here 00:00:03, 00:00:01, 00:00:02. *)
Lemma load_not_ascending :
  ~ ascending IsoDate.getTime
      (messages (fetchMessages IsoDate.getTime sampleClock (FetchJson unreadableHistory) initialState)) /\
  ~ v1Ascending IsoDate.getTime
      (RoomV1.messages
         (RoomV1.fetchMessages sampleClock (FetchJson v1ShuffledHistory) RoomV1.initialState)).
Proof.
  split.
  - unfold ascending. intros H.
    assert (E : messages (fetchMessages IsoDate.getTime sampleClock
                            (FetchJson unreadableHistory) initialState)
                = Js.mapAt normalize sampleClock 0 unreadableHistory)
      by (vm_compute; reflexivity).
    rewrite E in H. simpl in H.
    inversion H as [|x l _ Hall]; subst.
    inversion Hall as [|y l' _ Hall']; subst.
    inversion Hall' as [|z l'' Hac _]; subst.
    vm_compute in Hac. apply Hac. reflexivity.
  - unfold v1Ascending. simpl. intros H.
    inversion H as [|x l _ Hall]; subst.
    inversion Hall as [|y l' Hab _]; subst.
    vm_compute in Hab. apply Hab. reflexivity.
Qed.

(** C4, amended: when every [createdAt] of the normalized response is a
    date the host can read, the second revision's history load sets a
    log that is ascending by [createdAt], whatever the order of arrival,
    and that holds the normalized records and nothing else. *)
Theorem load_ascending_when_dates_valid
        (getTime : string -> option Z) (clock : nat -> string)
        (data : list HistoryRecord) (s : State) :
  datesValid getTime (Js.mapAt normalize clock 0 data) = true ->
  let log := messages (fetchMessages getTime clock (FetchJson data) s) in
  ascending getTime log /\ Permutation (Js.mapAt normalize clock 0 data) log.
Proof.
  intros Hv. simpl. unfold loadedMessages. split.
  - apply sort_ascending, datesValid_Forall, Hv.
  - apply sort_perm.
Qed.

(** History arriving in the order T3, T1, T2. *)
Definition shuffledHistory : list HistoryRecord :=
  [ mkHistoryRecord "h3" (Some "Al") None (Some "three") None None (Some "2024-01-01T00:00:03.000Z");
    mkHistoryRecord "h1" (Some "Bea") None (Some "one") None None (Some "2024-01-01T00:00:01.000Z");
    mkHistoryRecord "h2" (Some "Cy") None (Some "two") None None (Some "2024-01-01T00:00:02.000Z") ].

Example shuffled_history_order :
  ids (loadedMessages IsoDate.getTime sampleClock shuffledHistory) = ["h1"; "h2"; "h3"].
Proof. vm_compute. reflexivity. Qed.

Lemma load_ascending_when_dates_valid_witness :
  datesValid IsoDate.getTime (Js.mapAt normalize sampleClock 0 shuffledHistory) = true /\
  ascending IsoDate.getTime
    (messages (fetchMessages IsoDate.getTime sampleClock (FetchJson shuffledHistory) initialState)).
Proof.
  split; [vm_compute; reflexivity|].
  apply (load_ascending_when_dates_valid IsoDate.getTime sampleClock shuffledHistory initialState).
  vm_compute. reflexivity.
Defined.

(** The first revision does not sort: the log is the normalized
    response in its order of arrival. *)
Lemma v1_load_keeps_arrival_order (clock : nat -> string)
      (data : list RoomV1.HistoryRecord) (s : RoomV1.State) :
  map RoomV1.id (RoomV1.messages (RoomV1.fetchMessages clock (FetchJson data) s))
  = map RoomV1.h_id data.
Proof.
  simpl. generalize 0%nat. induction data as [|r data IH]; intros i; simpl;
    [|rewrite IH]; reflexivity.
Qed.

(** ** Messages from the socket *)

Lemma present_In (x : Message) (log : list Message) :
  existsb (fun m => String.eqb (id m) (id x)) log = true <-> In (id x) (ids log).
Proof.
  unfold ids. rewrite existsb_exists, in_map_iff.
  split; intros [m [H1 H2]]; exists m.
  - apply String.eqb_eq in H2. auto.
  - split; [assumption|]. apply String.eqb_eq, H1.
Qed.

Lemma appendUnlessPresent_old (x : Message) (log : list Message) :
  In (id x) (ids log) -> appendUnlessPresent x log = log.
Proof.
  intros H. unfold appendUnlessPresent.
  apply present_In in H. rewrite H. reflexivity.
Qed.

Lemma appendUnlessPresent_new (x : Message) (log : list Message) :
  ~ In (id x) (ids log) -> appendUnlessPresent x log = (log ++ [x])%list.
Proof.
  intros H. unfold appendUnlessPresent.
  destruct (existsb _ log) eqn:E; [|reflexivity].
  apply present_In in E. contradiction.
Qed.

Definition al : Env := mkEnv (Some "room1") "Al" (Some "token").

(** A joined room with one message of Bea's in the log. *)
Definition joinedState : State :=
  mkState true
    [mkMessage "m1" "Bea" (Some "hi") None "2024-01-01T00:00:00.000Z" (Some "room1")]
    "" None "Lunch" [] ["Bea"] [].

(** A message of another user who also calls himself Al. *)
Definition namesakeMessage : Message :=
  mkMessage "m9" "Al" (Some "me too") None "2024-01-01T00:00:05.000Z" (Some "room1").

(** C5, as stated, fails: a [receiveMessage] event with an id that is
    not in the log, but with the local display name as its sender,
    leaves the log at its length. *)
Lemma new_id_not_appended_for_own_name :
  ~ In (id namesakeMessage) (ids (messages joinedState)) /\
  length (messages (step IsoDate.getTime al joinedState (ReceiveMessage namesakeMessage)))
  <> S (length (messages joinedState)).
Proof.
  split.
  - simpl. intros [H|[]]. discriminate H.
  - vm_compute. discriminate.
Qed.

(** C5, amended: on a log of length N, a [receiveMessage] event whose
    id is not in the log and whose sender name is not the local display
    name, and a [receiveProof] event whose id is not in the log, give a
    log of length N+1 with the new message at the tail, whatever its
    [createdAt]. *)
Theorem live_message_appended (getTime : string -> option Z) (env : Env)
        (s : State) (msg : Message) :
  ~ In (id msg) (ids (messages s)) ->
  (senderName msg <> displayName env ->
   messages (step getTime env s (ReceiveMessage msg)) = (messages s ++ [msg])%list /\
   length (messages (step getTime env s (ReceiveMessage msg))) = S (length (messages s))) /\
  (messages (step getTime env s (ReceiveProof msg)) = (messages s ++ [msg])%list /\
   length (messages (step getTime env s (ReceiveProof msg))) = S (length (messages s))).
Proof.
  intros Hnew.
  assert (L : length (messages s ++ [msg]) = S (length (messages s)))
    by (rewrite length_app; simpl; lia).
  split.
  - intros Hname. simpl. unfold onReceiveMessage.
    apply String.eqb_neq in Hname. rewrite Hname. simpl.
    rewrite (appendUnlessPresent_new _ _ Hnew). auto.
  - simpl. rewrite (appendUnlessPresent_new _ _ Hnew). auto.
Qed.

(** A message of Cy's with a time stamp earlier than the log's. *)
Definition lateMessage : Message :=
  mkMessage "m7" "Cy" (Some "late") None "2023-12-31T23:59:00.000Z" (Some "room1").

Lemma live_message_appended_witness :
  messages (step IsoDate.getTime al joinedState (ReceiveMessage lateMessage))
  = (messages joinedState ++ [lateMessage])%list.
Proof.
  assert (Hnew : ~ In (id lateMessage) (ids (messages joinedState)))
    by (simpl; intros [H|[]]; discriminate H).
  assert (Hname : senderName lateMessage <> displayName al)
    by (simpl; discriminate).
  exact (proj1 (proj1 (live_message_appended IsoDate.getTime al joinedState lateMessage Hnew) Hname)).
Defined.

(** C10: a [receiveMessage] event whose sender name is the local
    display name is dropped and nothing changes, whatever its id, also
    when no entry of the log has that id. *)
Theorem own_name_message_discarded (getTime : string -> option Z) (env : Env)
        (s : State) (msg : Message) :
  senderName msg = displayName env ->
  step getTime env s (ReceiveMessage msg) = s.
Proof.
  intros H. simpl. unfold onReceiveMessage.
  apply String.eqb_eq in H. rewrite H. reflexivity.
Qed.

Lemma own_name_message_discarded_witness :
  ~ In (id namesakeMessage) (ids (messages joinedState)) /\
  step IsoDate.getTime al joinedState (ReceiveMessage namesakeMessage) = joinedState.
Proof.
  split.
  - simpl. intros [H|[]]. discriminate H.
  - apply (own_name_message_discarded IsoDate.getTime al joinedState namesakeMessage).
    reflexivity.
Defined.

(** ** Sending text *)

Lemma handleSend_text (env : Env) (uuid now : string) (s : State) :
  socket s = true -> Js.nonBlank (input s) = true ->
  handleSend env uuid now s =
  (mkState true (messages s ++ [textMessage env uuid now s])%list "" (file s) (roomTitle s)
           (menuItems s) (onlineUsers s)
           (effects s ++ [Emit (SendMessage (textMessage env uuid now s))])%list,
   file s).
Proof.
  intros Hs Hi. unfold handleSend. rewrite Hs, Hi. simpl.
  unfold setInput, emit, perform, setMessages. simpl. rewrite Hs. reflexivity.
Qed.





Definition echoOfM2 : Message :=
  mkMessage "m2" "Al" (Some "yo") None "2024-01-01T00:00:04.000Z" (Some "room1").


(** The same scenario from the mounting of the component on, with an
    echo that the server has given another sender name: the id alone
    keeps it out. *)
Example scenario_history_send_echo :
  ids (messages
         (run IsoDate.getTime al initialState
              [Mount; Connect;
               MessagesFetched sampleClock
                 (FetchJson [mkHistoryRecord "m1" (Some "Bea") None (Some "hi") None None
                                             (Some "2024-01-01T00:00:00.000Z")]);
               InputChange "yo";
               Send "m2" "2024-01-01T00:00:04.000Z";
               ReceiveMessage (mkMessage "m2" "Albert" (Some "yo") None
                                         "2024-01-01T00:00:04.100Z" (Some "room1"))]))
  = ["m1"; "m2"].
Proof. vm_compute. reflexivity. Qed.

(** A joined room with only white space in the input. *)
Definition typedSpace : State :=
  mkState true [] " " None "Lunch" [] [] [].





(** An input that is nothing but a no-break space (U+00A0) is blank as
    well, and is not sent. *)
Example no_break_space_not_sent :
  let s := mkState true [] (String (ascii_of_nat 194) (String (ascii_of_nat 160) ""))
                   None "Lunch" [] [] [] in
  Js.nonBlank (input s) = false /\
  handleSend al "u1" "2024-01-01T00:00:04.000Z" s = (s, None).
Proof. split; vm_compute; reflexivity. Qed.



(** The first revision emits the text and leaves the log alone; the
    message reaches the log when the server sends [newMessage]. *)
Lemma v1_text_emitted_not_inserted (env : Env) (s : RoomV1.State) :
  RoomV1.socket s = true -> Js.nonBlank (RoomV1.input s) = true ->
  let s' := RoomV1.handleSendMessage env s in
  RoomV1.messages s' = RoomV1.messages s /\
  RoomV1.effects s' =
  (RoomV1.effects s ++
     [Emit (RoomV1.SendMessage
              (RoomV1.mkOutgoing (paramsRoomId env) (displayName env) (RoomV1.input s)))])%list.
Proof.
  intros Hs Hi. unfold RoomV1.handleSendMessage. rewrite Hs, Hi. simpl. auto.
Qed.

(** ** Sending a proof *)

Lemma commands_app {C : Type} (l1 l2 : list (Effect C)) :
  commands (l1 ++ l2) = (commands l1 ++ commands l2)%list.
Proof.
  induction l1 as [|e l1 IH]; simpl; [reflexivity|].
  destruct e; simpl; rewrite IH; reflexivity.
Qed.

Lemma notices_app {C : Type} (l1 l2 : list (Effect C)) :
  notices (l1 ++ l2) = (notices l1 ++ notices l2)%list.
Proof.
  induction l1 as [|e l1 IH]; simpl; [reflexivity|].
  destruct e; simpl; rewrite IH; reflexivity.
Qed.

Lemma navigations_app {C : Type} (l1 l2 : list (Effect C)) :
  navigations (l1 ++ l2) = (navigations l1 ++ navigations l2)%list.
Proof.
  induction l1 as [|e l1 IH]; simpl; [reflexivity|].
  destruct e; simpl; rewrite IH; reflexivity.
Qed.

Lemma handleSendUploaded_failed (env : Env) (r : Fetched ProofData) (s : State) :
  failed r = true ->
  handleSendUploaded env r s =
  mkState (socket s) (messages s) (input s) (file s) (roomTitle s) (menuItems s) (onlineUsers s)
          ((effects s ++ [ConsoleError (errorMessage "Failed to upload file" r)])
             ++ [Toast "Error sending file" (Some (errorMessage "Failed to upload file" r))])%list.
Proof.
  destruct r; simpl; intros H; try discriminate; reflexivity.
Qed.

(** C6: when the upload of a proof fails (the request throws or is
    answered with a status that is not ok), the continuation of
    [handleSend] leaves the log as it is, emits nothing, and tells the
    user with an "Error sending file" notice that carries the error's
    message.  A whole call of [handleSend] with a file attached ends
    with the log and the emitted commands that its text branch alone
    left, so with the log unchanged when there was no text.  The first
    revision's [handleSendFile] does the same. *)
Theorem failed_upload_adds_nothing (getTime : string -> option Z) (env : Env) :
  (forall (r : Fetched ProofData) (s : State),
      failed r = true ->
      let s' := step getTime env s (UploadSettled r) in
      messages s' = messages s /\
      commands (effects s') = commands (effects s) /\
      notices (effects s')
      = (notices (effects s) ++ ["Error sending file"])%list) /\
  (forall (uuid now : string) (upload : File -> Fetched ProofData) (s : State) (f : File),
      socket s = true -> file s = Some f -> failed (upload f) = true ->
      let s' := handleSendAwaited env uuid now upload s in
      messages s' = messages (fst (handleSend env uuid now s)) /\
      commands (effects s') = commands (effects (fst (handleSend env uuid now s))) /\
      (Js.nonBlank (input s) = false ->
       messages s' = messages s /\ commands (effects s') = commands (effects s)) /\
      notices (effects s')
      = (notices (effects s) ++ ["Error sending file"])%list) /\
  (forall (r : Fetched unit) (s : RoomV1.State),
      failed r = true ->
      let s' := RoomV1.step env s (RoomV1.UploadSettled r) in
      RoomV1.messages s' = RoomV1.messages s /\
      commands (RoomV1.effects s') = commands (RoomV1.effects s) /\
      notices (RoomV1.effects s')
      = (notices (RoomV1.effects s) ++ ["Error sending file"])%list).
Proof.
  split; [|split].
  - intros r s Hr. simpl. rewrite (handleSendUploaded_failed env r s Hr). simpl.
    rewrite !commands_app, !notices_app. simpl. rewrite !app_nil_r. auto.
  - intros uuid now upload s f Hs Hf Hr. unfold handleSendAwaited.
    destruct (Js.nonBlank (input s)) eqn:Hi.
    + rewrite (handleSend_text env uuid now s Hs Hi), Hf.
      rewrite (handleSendUploaded_failed env (upload f) _ Hr). simpl.
      rewrite !commands_app, !notices_app. simpl. rewrite !app_nil_r.
      repeat split; discriminate.
    + unfold handleSend. rewrite Hs, Hi, Hf. simpl.
      rewrite (handleSendUploaded_failed env (upload f) _ Hr). simpl.
      rewrite !commands_app, !notices_app. simpl. rewrite !app_nil_r.
      repeat split.
  - intros r s Hr. destruct r; try discriminate; simpl;
      rewrite !commands_app, !notices_app; simpl; rewrite !app_nil_r; auto.
Qed.

(** A joined room with a file attached and nothing typed. *)
Definition attachedReceipt : State :=
  mkState true
    [mkMessage "m1" "Bea" (Some "hi") None "2024-01-01T00:00:00.000Z" None]
    "" (Some "receipt.png") "Lunch" [] ["Bea"] [].

Lemma failed_upload_adds_nothing_witness :
  let s' := handleSendAwaited al "u1" "2024-01-01T00:00:04.000Z"
              (fun _ => FetchNotOk 500) attachedReceipt in
  messages s' = messages attachedReceipt /\
  commands (effects s') = [] /\
  notices (effects s') = ["Error sending file"].
Proof.
  destruct (failed_upload_adds_nothing IsoDate.getTime al) as [_ [H _]].
  destruct (H "u1" "2024-01-01T00:00:04.000Z" (fun _ => FetchNotOk 500) attachedReceipt
              "receipt.png" eq_refl eq_refl eq_refl) as [_ [_ [H3 H4]]].
  destruct (H3 eq_refl) as [Hm Hc].
  split; [exact Hm|]. split; [exact Hc|exact H4].
Defined.

(** ** Presence *)

(** C7, as stated, fails: [userJoined] does not add the name to the
    online users, and [userLeft] does not remove it. *)
Lemma presence_not_changed_by_join_or_leave :
  ~ In "Cy" (onlineUsers (step IsoDate.getTime al joinedState (UserJoined "Cy"))) /\
  In "Bea" (onlineUsers (step IsoDate.getTime al joinedState (UserLeft "Bea"))).
Proof.
  split.
  - vm_compute. intros [H|[]]. discriminate H.
  - vm_compute. left. reflexivity.
Qed.

Lemma step_onlineUsers (getTime : string -> option Z) (env : Env) (s : State) (e : Event) :
  onlineUsers (step getTime env s e) =
  match e with
  | UserList users => filter (fun u => negb (String.eqb u (displayName env))) users
  | _ => onlineUsers s
  end.
Proof.
  destruct e; simpl; try reflexivity.
  - unfold mount. destruct (Js.truthy (token env)); reflexivity.
  - unfold unmount. destruct (Js.truthy (token env)); reflexivity.
  - unfold fetchRoom. destruct r; try reflexivity.
    destruct (menuItemsOf (menu data)); reflexivity.
  - destruct r; reflexivity.
  - unfold onUserJoined. destruct (negb _); reflexivity.
  - unfold onUserLeft. destruct (negb _); reflexivity.
  - unfold onReceiveMessage. destruct (String.eqb _ _); reflexivity.
  - destruct files; reflexivity.
  - unfold handleSend.
    destruct (negb (socket s) || _); [reflexivity|].
    destruct (Js.nonBlank (input s)); reflexivity.
  - destruct r; reflexivity.
Qed.

(** C7, amended: the online users never hold the local display name,
    and only [userList] changes them: it replaces them by the received
    names without the local display name.  [userJoined] and [userLeft]
    leave them as they are, and show a notice for the name unless it is
    the local display name; no other event touches them. *)
Theorem presence_replaced_by_userList_only (getTime : string -> option Z) (env : Env) :
  (forall (s : State) (users : list string) (u : string),
      In u (onlineUsers (step getTime env s (UserList users)))
      <-> In u users /\ u <> displayName env) /\
  (forall (s : State) (users : list string),
      onlineUsers (step getTime env s (UserList users))
      = filter (fun u => negb (String.eqb u (displayName env))) users) /\
  (forall (s : State) (e : Event),
      (forall users, e <> UserList users) ->
      onlineUsers (step getTime env s e) = onlineUsers s) /\
  (forall (s : State) (u : string),
      u <> displayName env ->
      effects (step getTime env s (UserJoined u))
      = (effects s ++ [Toast (u ++ " joined the room") None])%list /\
      effects (step getTime env s (UserLeft u))
      = (effects s ++ [Toast (u ++ " left the room") None])%list) /\
  (forall (s : State),
      step getTime env s (UserJoined (displayName env)) = s /\
      step getTime env s (UserLeft (displayName env)) = s) /\
  (forall (es : list Event),
      ~ In (displayName env) (onlineUsers (run getTime env initialState es))).
Proof.
  assert (F : forall users u,
             In u (filter (fun u => negb (String.eqb u (displayName env))) users)
             <-> In u users /\ u <> displayName env).
  { intros users u. rewrite filter_In, negb_true_iff, String.eqb_neq. tauto. }
  split; [|split; [|split; [|split; [|split]]]].
  - intros s users u. simpl. apply F.
  - reflexivity.
  - intros s e Hne. rewrite step_onlineUsers.
    destruct e; try reflexivity. destruct (Hne users). reflexivity.
  - intros s u Hu. simpl. unfold onUserJoined, onUserLeft.
    apply String.eqb_neq in Hu. rewrite Hu. split; reflexivity.
  - intros s. simpl. unfold onUserJoined, onUserLeft.
    rewrite String.eqb_refl. split; reflexivity.
  - assert (G : forall es s, ~ In (displayName env) (onlineUsers s) ->
                             ~ In (displayName env) (onlineUsers (run getTime env s es))).
    { induction es as [|e es IH]; intros s Hs; simpl; [exact Hs|].
      apply IH. rewrite step_onlineUsers.
      destruct e; try exact Hs.
      intros H. apply F in H. tauto. }
    intros es. apply G. simpl. tauto.
Qed.

Lemma presence_replaced_by_userList_only_witness :
  onlineUsers (step IsoDate.getTime al joinedState (UserList ["Al"; "Bea"; "Cy"])) = ["Bea"; "Cy"] /\
  onlineUsers (step IsoDate.getTime al joinedState (UserJoined "Cy")) = ["Bea"] /\
  notices (effects (step IsoDate.getTime al joinedState (UserJoined "Cy"))) = ["Cy joined the room"].
Proof.
  destruct (presence_replaced_by_userList_only IsoDate.getTime al) as [_ [H2 [H3 [H4 _]]]].
  split; [rewrite H2; reflexivity|].
  split.
  - rewrite H3; [reflexivity|]. intros users. discriminate.
  - assert (Hne : "Cy" <> displayName al) by (simpl; discriminate).
    rewrite (proj1 (H4 joinedState "Cy" Hne)). reflexivity.
Defined.

(** ** Failures while entering a room *)

Definition noToken : Env := mkEnv (Some "room1") "Al" None.

(** C8, as stated, fails.  A messages request that throws is written to
    the console and nothing else: no notice, no navigation.  A room
    request answered 401 navigates to the rooms list, not to the login
    page, and leaves the very state that an answer of 404 leaves. *)
Lemma failed_history_load_only_logged :
  (let s' := step IsoDate.getTime al joinedState
               (MessagesFetched sampleClock (FetchThrew "Failed to fetch")) in
   effects s' = [ConsoleError "Failed to fetch"] /\
   notices (effects s') = [] /\ navigations (effects s') = []) /\
  navigations (effects (step IsoDate.getTime al joinedState (RoomFetched (FetchNotOk 401))))
  = ["/rooms"] /\
  step IsoDate.getTime al joinedState (RoomFetched (FetchNotOk 401))
  = step IsoDate.getTime al joinedState (RoomFetched (FetchNotOk 404)).
Proof.
  repeat split.
Qed.

(** A room whose menu has a [null] entry behind a good one. *)
Definition brokenMenuRoom : RoomData :=
  mkRoomData "Dinner"
    (MenuArray [EntryString "soup";
                EntryNull "Cannot read properties of null (reading 'name')"]).

(** C8, amended: without a token the component shows an "Unauthorized"
    notice and goes to the login page.  Every failure of the room
    request shows an "Error" notice with the error's message and goes
    to the rooms list, with the log untouched.  When the request throws
    or is answered with a status that is not ok (the message is then
    "Failed to fetch room", the same for every status), the title and
    the menu stay as they were; when the body was read and its menu
    cannot be mapped (a [null] entry, or a menu that is no array), the
    title has been set to the room's by then and stays set, and the menu
    items stay as they were.  Every failure of the messages request is
    written to the console only: the log stays, and there is no notice
    and no navigation.  The first revision treats the two requests in
    the same way. *)
Theorem load_failures_handled (getTime : string -> option Z) (env : Env) (s : State) :
  (Js.truthy (token env) = false ->
   let s' := step getTime env s Mount in
   effects s' = (effects s ++ [Toast "Unauthorized" (Some "Please log in."); Navigate "/login"])%list /\
   socket s' = socket s /\ messages s' = messages s) /\
  (forall r : Fetched RoomData,
      failed r = true ->
      let s' := step getTime env s (RoomFetched r) in
      effects s' =
      (effects s ++ [Toast "Error" (Some (errorMessage "Failed to fetch room" r));
                     Navigate "/rooms"])%list /\
      messages s' = messages s /\ roomTitle s' = roomTitle s /\ menuItems s' = menuItems s) /\
  (forall (room : RoomData) (message : string),
      menuItemsOf (menu room) = inl message ->
      let s' := step getTime env s (RoomFetched (FetchJson room)) in
      effects s' = (effects s ++ [Toast "Error" (Some message); Navigate "/rooms"])%list /\
      messages s' = messages s /\ roomTitle s' = title room /\ menuItems s' = menuItems s) /\
  (forall (room : RoomData) (items : list MenuItem),
      menuItemsOf (menu room) = inr items ->
      let s' := step getTime env s (RoomFetched (FetchJson room)) in
      effects s' = effects s /\ roomTitle s' = title room /\ menuItems s' = items) /\
  (forall (clock : nat -> string) (r : Fetched (list HistoryRecord)),
      failed r = true ->
      let s' := step getTime env s (MessagesFetched clock r) in
      effects s' =
      (effects s ++ [ConsoleError (errorMessage "Failed to fetch messages" r)])%list /\
      messages s' = messages s /\
      notices (effects s') = notices (effects s) /\
      navigations (effects s') = navigations (effects s)) /\
  (forall (s1 : RoomV1.State),
      (forall r : Fetched (list RoomV1.RoomEntry),
          failed r = true ->
          RoomV1.effects (RoomV1.step env s1 (RoomV1.RoomFetched r)) =
          (RoomV1.effects s1 ++ [Toast "Error" (Some (errorMessage "Failed to fetch rooms" r));
                                 Navigate "/rooms"])%list) /\
      (forall (clock : nat -> string) (r : Fetched (list RoomV1.HistoryRecord)),
          failed r = true ->
          let s' := RoomV1.step env s1 (RoomV1.MessagesFetched clock r) in
          RoomV1.effects s' =
          (RoomV1.effects s1 ++ [ConsoleError (errorMessage "Failed to fetch messages" r)])%list /\
          RoomV1.messages s' = RoomV1.messages s1)).
Proof.
  split; [|split; [|split; [|split; [|split]]]].
  - intros Ht. simpl. unfold mount. rewrite Ht. simpl.
    rewrite <- app_assoc. auto.
  - intros r Hr. destruct r; try discriminate; simpl; rewrite <- app_assoc; auto.
  - intros room message Hm. simpl. unfold fetchRoom. rewrite Hm. simpl.
    rewrite <- app_assoc. auto.
  - intros room items Hm. simpl. unfold fetchRoom. rewrite Hm. simpl. auto.
  - intros clock r Hr.
    destruct r; try discriminate; simpl;
      rewrite notices_app, navigations_app; simpl; rewrite !app_nil_r; auto.
  - intros s1. split.
    + intros r Hr. destruct r; try discriminate; simpl; rewrite <- app_assoc; reflexivity.
    + intros clock r Hr. destruct r; try discriminate; simpl; auto.
Qed.

Lemma load_failures_handled_witness :
  navigations (effects (step IsoDate.getTime noToken initialState Mount)) = ["/login"] /\
  notices (effects (step IsoDate.getTime al joinedState (RoomFetched (FetchNotOk 404)))) = ["Error"] /\
  (roomTitle (step IsoDate.getTime al joinedState (RoomFetched (FetchJson brokenMenuRoom)))
   = "Dinner" /\
   navigations (effects (step IsoDate.getTime al joinedState
                              (RoomFetched (FetchJson brokenMenuRoom)))) = ["/rooms"]) /\
  messages (step IsoDate.getTime al joinedState
                 (MessagesFetched sampleClock (FetchNotOk 500))) = messages joinedState.
Proof.
  split; [|split; [|split]].
  - destruct (load_failures_handled IsoDate.getTime noToken initialState) as [H _].
    destruct (H eq_refl) as [He _]. rewrite He. reflexivity.
  - destruct (load_failures_handled IsoDate.getTime al joinedState) as [_ [H _]].
    destruct (H (FetchNotOk 404) eq_refl) as [He _]. rewrite He. reflexivity.
  - destruct (load_failures_handled IsoDate.getTime al joinedState) as [_ [_ [H _]]].
    destruct (H brokenMenuRoom _ eq_refl) as [He [_ [Ht _]]].
    split; [exact Ht|]. rewrite He. reflexivity.
  - destruct (load_failures_handled IsoDate.getTime al joinedState) as [_ [_ [_ [_ [H _]]]]].
    destruct (H sampleClock (FetchNotOk 500) eq_refl) as [_ [Hm _]]. exact Hm.
Defined.

(** The first revision looks the room up in the list of all rooms, and
    has a message of its own for a room that is not there. *)
Lemma v1_missing_room_reported (env : Env) (rooms : list RoomV1.RoomEntry) (s : RoomV1.State) :
  find (fun r => RoomV1.sameId (Some (RoomV1.room_id r)) (paramsRoomId env)) rooms = None ->
  RoomV1.effects (RoomV1.fetchRoom env (FetchJson rooms) s)
  = (RoomV1.effects s ++ [Toast "Error" (Some "Room not found"); Navigate "/rooms"])%list.
Proof.
  intros H. unfold RoomV1.fetchRoom. rewrite H. simpl. rewrite <- app_assoc. reflexivity.
Qed.

(** ** No id twice in the log *)

Lemma existsb_eqb_In (x : string) (l : list string) :
  existsb (String.eqb x) l = true <-> In x l.
Proof.
  rewrite existsb_exists. split.
  - intros [y [Hy E]]. apply String.eqb_eq in E. subst. exact Hy.
  - intros H. exists x. split; [exact H|apply String.eqb_refl].
Qed.

Lemma distinct_NoDup (l : list string) : distinct l = true -> NoDup l.
Proof.
  induction l as [|x l IH]; simpl; intros H; [constructor|].
  apply andb_true_iff in H. destruct H as [H1 H2].
  constructor; [|apply IH, H2].
  intros Hin. apply existsb_eqb_In in Hin. rewrite Hin in H1. discriminate.
Qed.

Lemma NoDup_snoc (x : string) (l : list string) :
  NoDup l -> ~ In x l -> NoDup (l ++ [x]).
Proof.
  intros Hl Hx. apply NoDup_app; [exact Hl|repeat constructor; simpl; tauto|].
  intros y Hy [<-|[]]. exact (Hx Hy).
Qed.

Lemma appendUnlessPresent_NoDup (x : Message) (log : list Message) :
  NoDup (ids log) -> NoDup (ids (appendUnlessPresent x log)).
Proof.
  intros H. unfold appendUnlessPresent.
  destruct (existsb _ log) eqn:E; [exact H|].
  unfold ids. rewrite map_app. simpl. apply NoDup_snoc; [exact H|].
  intros Hin. apply present_In in Hin. rewrite Hin in E. discriminate.
Qed.

Lemma loadedMessages_NoDup (getTime : string -> option Z) (clock : nat -> string)
      (data : list HistoryRecord) :
  NoDup (map h_id data) -> NoDup (ids (loadedMessages getTime clock data)).
Proof.
  intros H. unfold loadedMessages.
  apply (Permutation_NoDup (l := ids (Js.mapAt normalize clock 0 data))).
  - unfold ids. apply Permutation_map, sort_perm.
  - rewrite mapAt_ids. exact H.
Qed.

(** One event keeps the ids of the log distinct. *)
Lemma step_NoDup (getTime : string -> option Z) (env : Env) (s : State) (e : Event) :
  eventAdmissible s e = true ->
  NoDup (ids (messages s)) -> NoDup (ids (messages (step getTime env s e))).
Proof.
  intros Ha Hs. destruct e; simpl; try exact Hs.
  - unfold mount. destruct (Js.truthy (token env)); exact Hs.
  - unfold unmount. destruct (Js.truthy (token env)); exact Hs.
  - unfold fetchRoom. destruct r; try exact Hs.
    destruct (menuItemsOf (menu data)); exact Hs.
  - destruct r; simpl; try exact Hs.
    apply loadedMessages_NoDup, distinct_NoDup, Ha.
  - unfold onUserJoined. destruct (negb _); exact Hs.
  - unfold onUserLeft. destruct (negb _); exact Hs.
  - unfold onReceiveMessage. destruct (String.eqb _ _); [exact Hs|].
    simpl. apply appendUnlessPresent_NoDup, Hs.
  - apply appendUnlessPresent_NoDup, Hs.
  - destruct files; exact Hs.
  - simpl in Ha. unfold handleSend.
    destruct (socket s); simpl in *; [|exact Hs].
    destruct (Js.nonBlank (input s)); simpl in *.
    + unfold ids. rewrite map_app. simpl. apply NoDup_snoc; [exact Hs|].
      intros Hin. apply existsb_eqb_In in Hin. unfold ids in Ha.
      rewrite Hin in Ha. discriminate.
    + destruct (Js.defined (file s)); exact Hs.
  - destruct r; simpl; try exact Hs.
    apply appendUnlessPresent_NoDup, Hs.
Qed.

Lemma run_NoDup (getTime : string -> option Z) (env : Env) (es : list Event) :
  forall s, admissible getTime env s es = true ->
            NoDup (ids (messages s)) -> NoDup (ids (messages (run getTime env s es))).
Proof.
  induction es as [|e es IH]; simpl; intros s Ha Hs; [exact Hs|].
  apply andb_true_iff in Ha. destruct Ha as [He Ha].
  apply IH; [exact Ha|]. apply step_NoDup; assumption.
Qed.

(** A response that lists the record [m1] twice. *)
Definition repeatedHistory : list HistoryRecord :=
  [ mkHistoryRecord "m1" (Some "Bea") None (Some "hi") None None (Some "2024-01-01T00:00:00.000Z");
    mkHistoryRecord "m1" (Some "Bea") None (Some "hi") None None (Some "2024-01-01T00:00:00.000Z") ].

(** C1, as stated, fails: the history load sets what the response
    holds, and a response with the same id twice gives a log with the
    same id twice. *)
Lemma log_ids_repeat_after_load :
  ~ NoDup (ids (messages (run IsoDate.getTime al initialState
                              [Mount; MessagesFetched sampleClock (FetchJson repeatedHistory)]))).
Proof.
  intros H.
  assert (E : ids (messages (run IsoDate.getTime al initialState
                                 [Mount; MessagesFetched sampleClock (FetchJson repeatedHistory)]))
              = ["m1"; "m1"]) by (vm_compute; reflexivity).
  rewrite E in H. inversion H as [|x l Hnin _]; subst.
  apply Hnin. left. reflexivity.
Qed.

(** C1, amended: from the mounting of the component on, after every
    sequence of events (history loads, socket events, sends, settled
    uploads and the rest) in which every history response has distinct
    ids and every id generated for a sent text is not in the log at that
    moment, the log has no two entries with the same id. *)
Theorem log_ids_distinct (getTime : string -> option Z) (env : Env) (es : list Event) :
  admissible getTime env initialState es = true ->
  NoDup (ids (messages (run getTime env initialState es))).
Proof.
  intros Ha. apply run_NoDup; [exact Ha|]. simpl. constructor.
Qed.

Lemma log_ids_distinct_witness :
  NoDup (ids (messages
                (run IsoDate.getTime al initialState
                     [Mount; Connect;
                      MessagesFetched sampleClock (FetchJson shuffledHistory);
                      ReceiveMessage lateMessage;
                      InputChange "yo";
                      Send "m2" "2024-01-01T00:00:04.000Z";
                      ReceiveMessage echoOfM2;
                      ReceiveProof lateMessage;
                      UploadSettled (FetchJson (mkProofData "m7" "/p/7.png" "2024-01-01T00:00:06.000Z"))]))).
Proof.
  apply (log_ids_distinct IsoDate.getTime al). vm_compute. reflexivity.
Defined.

(** * Further facts about the component *)

From Stdlib Require Import Wf_nat DecimalNat.

(** ** Trimming *)

Lemma by_length (P : string -> Prop) :
  (forall s, (forall r, String.length r < String.length s -> P r) -> P s) ->
  forall s, P s.
Proof.
  intros H s. remember (String.length s) as n eqn:E. revert s E.
  induction n as [n IH] using lt_wf_ind. intros s ->.
  apply H. intros r Hr. exact (IH _ Hr r eq_refl).
Qed.

Lemma trimStart_skip (s : string) :
  Js.trimStart s =
  match Js.skipWhiteSpace s with
  | Some r => Js.trimStart r
  | None => s
  end.
Proof.
  destruct s as [|c1 r1]; [reflexivity|].
  cbn [Js.trimStart Js.skipWhiteSpace].
  destruct (Js.whiteSpace1 c1); [reflexivity|].
  destruct r1 as [|c2 r2]; [reflexivity|].
  destruct (Js.whiteSpace2 c1 c2); [reflexivity|].
  destruct r2 as [|c3 r3]; [reflexivity|].
  destruct (Js.whiteSpace3 c1 c2 c3); reflexivity.
Qed.

Lemma skip_length (s r : string) :
  Js.skipWhiteSpace s = Some r -> String.length r < String.length s.
Proof.
  destruct s as [|c1 r1]; [discriminate|].
  cbn [Js.skipWhiteSpace].
  destruct (Js.whiteSpace1 c1); [intros [= <-]; simpl; lia|].
  destruct r1 as [|c2 r2]; [discriminate|].
  destruct (Js.whiteSpace2 c1 c2); [intros [= <-]; simpl; lia|].
  destruct r2 as [|c3 r3]; [discriminate|].
  destruct (Js.whiteSpace3 c1 c2 c3); [intros [= <-]; simpl; lia|discriminate].
Qed.

Lemma skip_app (s r w : string) :
  Js.skipWhiteSpace s = Some r -> Js.skipWhiteSpace (s ++ w) = Some (r ++ w).
Proof.
  destruct s as [|c1 r1]; [discriminate|].
  cbn [Js.skipWhiteSpace append].
  destruct (Js.whiteSpace1 c1); [intros [= <-]; reflexivity|].
  destruct r1 as [|c2 r2]; [discriminate|].
  cbn [append].
  destruct (Js.whiteSpace2 c1 c2); [intros [= <-]; reflexivity|].
  destruct r2 as [|c3 r3]; [discriminate|].
  cbn [append].
  destruct (Js.whiteSpace3 c1 c2 c3); [intros [= <-]; reflexivity|discriminate].
Qed.

Lemma skip_trimStart (s : string) : Js.skipWhiteSpace (Js.trimStart s) = None.
Proof.
  induction s as [s IH] using by_length.
  rewrite trimStart_skip. destruct (Js.skipWhiteSpace s) as [r|] eqn:E.
  - apply IH, skip_length, E.
  - exact E.
Qed.

Lemma trimStart_fixed (s : string) : Js.skipWhiteSpace s = None -> Js.trimStart s = s.
Proof. intros H. rewrite trimStart_skip, H. reflexivity. Qed.

Lemma trimStart_app (t w : string) :
  Js.allWhiteSpace t = true -> Js.trimStart (t ++ w) = Js.trimStart w.
Proof.
  unfold Js.allWhiteSpace. induction t as [t IH] using by_length.
  rewrite (trimStart_skip t). destruct (Js.skipWhiteSpace t) as [r|] eqn:E.
  - intros H. rewrite trimStart_skip, (skip_app _ _ w E).
    apply IH; [apply skip_length, E|exact H].
  - intros H. apply String.eqb_eq in H. subst. reflexivity.
Qed.

Lemma trimEnd_cons (c : ascii) (s : string) :
  Js.trimEnd (String c s) =
  if Js.allWhiteSpace (String c s) then EmptyString else String c (Js.trimEnd s).
Proof. reflexivity. Qed.

Lemma trimEnd_tail (s : string) :
  exists w, s = Js.trimEnd s ++ w /\ Js.allWhiteSpace w = true.
Proof.
  induction s as [|c s [w [E Hw]]].
  - exists "". split; reflexivity.
  - rewrite trimEnd_cons. destruct (Js.allWhiteSpace (String c s)) eqn:A.
    + exists (String c s). split; [reflexivity|exact A].
    + exists w. split; [|exact Hw]. simpl. rewrite <- E. reflexivity.
Qed.

Lemma trimEnd_not_all (s : string) :
  Js.allWhiteSpace s = false -> Js.allWhiteSpace (Js.trimEnd s) = false.
Proof.
  intros H. destruct (Js.allWhiteSpace (Js.trimEnd s)) eqn:A; [|reflexivity].
  destruct (trimEnd_tail s) as [w [E Hw]].
  assert (T : Js.trimStart s = Js.trimStart w)
    by (rewrite E at 1; apply trimStart_app, A).
  unfold Js.allWhiteSpace in H, Hw. rewrite T, Hw in H. discriminate.
Qed.

Lemma trimEnd_idempotent (s : string) : Js.trimEnd (Js.trimEnd s) = Js.trimEnd s.
Proof.
  induction s as [|c s IH]; [reflexivity|].
  rewrite trimEnd_cons. destruct (Js.allWhiteSpace (String c s)) eqn:A; [reflexivity|].
  pose proof (trimEnd_not_all _ A) as N. rewrite trimEnd_cons, A in N.
  rewrite trimEnd_cons, N, IH. reflexivity.
Qed.

Lemma skip_trimEnd (s : string) :
  Js.skipWhiteSpace s = None -> Js.skipWhiteSpace (Js.trimEnd s) = None.
Proof.
  intros H. destruct (Js.skipWhiteSpace (Js.trimEnd s)) as [r|] eqn:E; [|reflexivity].
  destruct (trimEnd_tail s) as [w [Es _]].
  apply (skip_app _ _ w) in E. rewrite <- Es, H in E. discriminate.
Qed.

(** A trimmed string has no white space left at either end. *)
Lemma trim_trimmed (s : string) :
  Js.trimStart (Js.trim s) = Js.trim s /\ Js.trimEnd (Js.trim s) = Js.trim s.
Proof.
  unfold Js.trim. split.
  - apply trimStart_fixed, skip_trimEnd, skip_trimStart.
  - apply trimEnd_idempotent.
Qed.

Lemma trim_idempotent (s : string) : Js.trim (Js.trim s) = Js.trim s.
Proof.
  destruct (trim_trimmed s) as [H1 H2]. unfold Js.trim at 1. rewrite H1. exact H2.
Qed.

(** ** What the component emits *)

(** The commands one event makes the second revision emit. *)
Definition emitted (env : Env) (s : State) (e : Event) : list Command :=
  match e with
  | Connect => [JoinRoom (paramsRoomId env) (displayName env)]
  | Send uuid now =>
      if socket s && Js.nonBlank (input s)
      then [SendMessage (textMessage env uuid now s)]
      else []
  | UploadSettled (FetchJson data) => [SendProof (proofMessage env data)]
  | _ => []
  end.

Lemma step_commands (getTime : string -> option Z) (env : Env) (s : State) (e : Event) :
  commands (effects (step getTime env s e))
  = (commands (effects s) ++ emitted env s e)%list.
Proof.
  destruct e; simpl;
    try match goal with
        | |- context [handleSend] =>
            unfold handleSend;
            destruct (socket s), (Js.nonBlank (input s)), (Js.defined (file s)); simpl
        end;
    unfold mount, unmount, onUserJoined, onUserLeft, onReceiveMessage, fetchRoom, fetchMessages,
      handleSendUploaded;
    repeat match goal with
           | |- context [if ?x then _ else _] => destruct x
           | |- context [match ?x with _ => _ end] => destruct x
           end;
    simpl; repeat (rewrite commands_app; simpl); rewrite ?app_nil_r; reflexivity.
Qed.

(** What can be said of every command the second revision emits: a
    join names the room of the route and the local user; a sent text
    carries the local display name, the room of the route, no
    attachment, and a text that is not empty and has no white space at
    either end (trimming it, at the front or at the back, leaves it as
    it is); a sent proof carries the local display name, the room of
    the route, an attachment and no text. *)
Definition commandWellFormed (env : Env) (c : Command) : Prop :=
  match c with
  | JoinRoom room user => room = paramsRoomId env /\ user = displayName env
  | SendMessage m =>
      senderName m = displayName env /\ roomId m = paramsRoomId env /\ proofUrl m = None /\
      exists t, text m = Some t /\ t <> "" /\
                Js.trimStart t = t /\ Js.trimEnd t = t
  | SendProof m =>
      senderName m = displayName env /\ roomId m = paramsRoomId env /\ text m = None /\
      exists u, proofUrl m = Some u
  end.

Lemma emitted_wellFormed (env : Env) (s : State) (e : Event) :
  Forall (commandWellFormed env) (emitted env s e).
Proof.
  destruct e; simpl; try constructor; simpl; auto.
  - destruct (socket s && Js.nonBlank (input s)) eqn:E; constructor; [|constructor].
    apply andb_true_iff in E. destruct E as [_ E].
    simpl. repeat split.
    exists (Js.trim (input s)). split; [reflexivity|].
    split; [|apply trim_trimmed].
    unfold Js.nonBlank in E. apply negb_true_iff, String.eqb_neq in E. exact E.
  - destruct r; constructor; [|constructor]. simpl. repeat split. eauto.
Qed.

Lemma run_commands_Forall (getTime : string -> option Z) (env : Env)
      (P : Command -> Prop) (es : list Event) :
  (forall s e, Forall P (emitted env s e)) ->
  forall s, Forall P (commands (effects s)) ->
            Forall P (commands (effects (run getTime env s es))).
Proof.
  intros HP. induction es as [|e es IH]; simpl; intros s Hs; [exact Hs|].
  apply IH. rewrite step_commands. apply Forall_app. split; [exact Hs|apply HP].
Qed.

(** X1: whatever happens, every command the second revision emits is
    well formed: texts go out under the local display name, trimmed and
    never blank; proofs go out under the local display name with their
    attachment; joins name the room of the route and the local user. *)
Theorem emitted_commands_wellFormed (getTime : string -> option Z) (env : Env)
        (es : list Event) (c : Command) :
  In c (commands (effects (run getTime env initialState es))) ->
  commandWellFormed env c.
Proof.
  revert c. apply Forall_forall.
  apply run_commands_Forall; [apply emitted_wellFormed|constructor].
Qed.

(** A joined room with a padded text typed. *)
Definition typedPadded : State :=
  mkState true [] "  see you at 8  " None "Lunch" [] [] [].

Lemma emitted_commands_wellFormed_witness :
  exists m,
    commands (effects (run IsoDate.getTime al initialState
                           [Mount; InputChange "  see you at 8  ";
                            Send "u7" "2024-01-01T00:00:04.000Z"]))
    = [SendMessage m] /\
    text m = Some "see you at 8" /\ senderName m = "Al".
Proof.
  exists (textMessage al "u7" "2024-01-01T00:00:04.000Z" typedPadded).
  split; [vm_compute; reflexivity|].
  assert (Hin : In (SendMessage (textMessage al "u7" "2024-01-01T00:00:04.000Z" typedPadded))
                   (commands (effects (run IsoDate.getTime al initialState
                                           [Mount; InputChange "  see you at 8  ";
                                            Send "u7" "2024-01-01T00:00:04.000Z"]))))
    by (vm_compute; left; reflexivity).
  destruct (emitted_commands_wellFormed IsoDate.getTime al _ _ Hin) as [Hs _].
  split; [reflexivity|exact Hs].
Defined.

(** The joins among the commands, and the connects among the events. *)
Definition joins (cs : list Command) : nat :=
  length (filter (fun c => match c with JoinRoom _ _ => true | _ => false end) cs).

Definition connects (es : list Event) : nat :=
  length (filter (fun e => match e with Connect => true | _ => false end) es).

Lemma joins_app (cs1 cs2 : list Command) : joins (cs1 ++ cs2) = joins cs1 + joins cs2.
Proof. unfold joins. rewrite filter_app, length_app. reflexivity. Qed.

Lemma run_joins (getTime : string -> option Z) (env : Env) (es : list Event) :
  forall s, joins (commands (effects (run getTime env s es)))
            = joins (commands (effects s)) + connects es.
Proof.
  induction es as [|e es IH]; intros s; simpl; [unfold connects; simpl; lia|].
  rewrite IH, step_commands, joins_app.
  assert (E : joins (emitted env s e) + connects es = connects (e :: es)).
  { unfold connects. destruct e; simpl; try reflexivity.
    - destruct (socket s && Js.nonBlank (input s)); reflexivity.
    - destruct r; reflexivity. }
  lia.
Qed.

(** X2: the second revision joins the room once for every connect of
    the socket, so again after every reconnect, and at no other time. *)
Theorem joins_once_per_connect (getTime : string -> option Z) (env : Env) (es : list Event) :
  joins (commands (effects (run getTime env initialState es))) = connects es.
Proof. rewrite run_joins. reflexivity. Qed.

(** ** The socket cell *)

Lemma step_socket (getTime : string -> option Z) (env : Env) (s : State) (e : Event) :
  socket (step getTime env s e) =
  match e with
  | Mount => if Js.truthy (token env) then true else socket s
  | _ => socket s
  end.
Proof.
  destruct e; simpl;
    try match goal with
        | |- context [handleSend] =>
            unfold handleSend;
            destruct (socket s) eqn:?, (Js.nonBlank (input s)), (Js.defined (file s)); simpl
        end;
    unfold mount, unmount, onUserJoined, onUserLeft, onReceiveMessage, fetchRoom, fetchMessages,
      handleSendUploaded;
    repeat match goal with
           | |- context [if ?x then _ else _] => destruct x
           | |- context [match ?x with _ => _ end] => destruct x
           end;
    simpl; congruence.
Qed.

Lemma run_socket_null (getTime : string -> option Z) (env : Env) (es : list Event) :
  Js.truthy (token env) = false ->
  forall s, socket s = false -> socket (run getTime env s es) = false.
Proof.
  intros Ht. induction es as [|e es IH]; simpl; intros s Hs; [exact Hs|].
  apply IH. rewrite step_socket. destruct e; try exact Hs. rewrite Ht. exact Hs.
Qed.

(** X3: without a token in local storage the socket is never set, and
    nothing can be sent: whatever has happened, and whatever is typed or
    attached, [handleSend] changes nothing and starts no upload. *)
Theorem nothing_sent_without_token (getTime : string -> option Z) (env : Env)
        (es : list Event) (uuid now : string) :
  Js.truthy (token env) = false ->
  let s := run getTime env initialState es in
  socket s = false /\ handleSend env uuid now s = (s, None).
Proof.
  intros Ht s.
  assert (Hs : socket s = false) by (apply run_socket_null; [exact Ht|reflexivity]).
  split; [exact Hs|]. unfold handleSend. rewrite Hs. reflexivity.
Qed.

Lemma nothing_sent_without_token_witness :
  handleSend noToken "u1" "2024-01-01T00:00:04.000Z"
    (run IsoDate.getTime noToken initialState [Mount; InputChange "yo"; FileChange (Some ["a.png"])])
  = (run IsoDate.getTime noToken initialState [Mount; InputChange "yo"; FileChange (Some ["a.png"])],
     None).
Proof.
  exact (proj2 (nothing_sent_without_token IsoDate.getTime noToken
                  [Mount; InputChange "yo"; FileChange (Some ["a.png"])]
                  "u1" "2024-01-01T00:00:04.000Z" eq_refl)).
Defined.

(** ** Growth of the log *)

(** A history response that was read. *)
Definition isLoad (e : Event) : bool :=
  match e with
  | MessagesFetched _ (FetchJson _) => true
  | _ => false
  end.

Lemma step_messages_tail (getTime : string -> option Z) (env : Env) (s : State) (e : Event) :
  isLoad e = false ->
  exists tail, messages (step getTime env s e) = (messages s ++ tail)%list /\ length tail <= 1.
Proof.
  intros He.
  assert (Z0 : exists tail, messages s = (messages s ++ tail)%list /\ length tail <= 1)
    by (exists []; rewrite app_nil_r; simpl; auto).
  assert (A : forall x, exists tail,
               appendUnlessPresent x (messages s) = (messages s ++ tail)%list /\ length tail <= 1).
  { intros x. unfold appendUnlessPresent. destruct (existsb _ _); [exact Z0|].
    exists [x]. simpl. auto. }
  destruct e; simpl; try exact Z0.
  - unfold mount. destruct (Js.truthy (token env)); exact Z0.
  - unfold unmount. destruct (Js.truthy (token env)); exact Z0.
  - unfold fetchRoom. destruct r; try exact Z0.
    destruct (menuItemsOf (menu data)); exact Z0.
  - destruct r; try exact Z0. discriminate He.
  - unfold onUserJoined. destruct (negb _); exact Z0.
  - unfold onUserLeft. destruct (negb _); exact Z0.
  - unfold onReceiveMessage. destruct (String.eqb _ _); [exact Z0|apply A].
  - apply A.
  - destruct files; exact Z0.
  - unfold handleSend. destruct (negb (socket s) || _); [exact Z0|].
    destruct (Js.nonBlank (input s)); [|exact Z0].
    simpl. eexists. split; [reflexivity|]. simpl. auto.
  - destruct r; try exact Z0. apply A.
Qed.

(** X4: apart from a history response that is read, no event removes,
    changes or reorders an entry of the log: over a sequence of such
    events the earlier log stays as the front of the log, and the log
    grows by one entry per event at most. *)
Theorem log_grows_at_the_tail (getTime : string -> option Z) (env : Env)
        (es : list Event) (s : State) :
  forallb (fun e => negb (isLoad e)) es = true ->
  exists tail,
    messages (run getTime env s es) = (messages s ++ tail)%list /\ length tail <= length es.
Proof.
  revert s. induction es as [|e es IH]; simpl; intros s H.
  - exists []. rewrite app_nil_r. auto.
  - apply andb_true_iff in H. destruct H as [He H].
    apply negb_true_iff in He.
    destruct (step_messages_tail getTime env s e He) as [t1 [E1 L1]].
    destruct (IH (step getTime env s e) H) as [t2 [E2 L2]].
    exists (t1 ++ t2)%list. rewrite E2, E1, <- app_assoc. split; [reflexivity|].
    rewrite length_app. lia.
Qed.

Lemma log_grows_at_the_tail_witness :
  exists tail,
    messages (run IsoDate.getTime al joinedState
                  [ReceiveMessage lateMessage; UserJoined "Cy"; ReceiveProof lateMessage])
    = (messages joinedState ++ tail)%list /\ length tail <= 3.
Proof.
  exact (log_grows_at_the_tail IsoDate.getTime al
           [ReceiveMessage lateMessage; UserJoined "Cy"; ReceiveProof lateMessage]
           joinedState eq_refl).
Defined.

(** X5: a history response that is read replaces the log: afterwards
    the log has one entry per record of the response, every entry
    carries the id of a record, and an entry that was in the log before
    (received live, or sent by the user) and whose id the response does
    not list is gone. *)
Theorem history_replaces_the_log (getTime : string -> option Z) (env : Env)
        (clock : nat -> string) (data : list HistoryRecord) (s : State) :
  let s' := step getTime env s (MessagesFetched clock (FetchJson data)) in
  length (messages s') = length data /\
  (forall m, In m (messages s') -> In (id m) (map h_id data)) /\
  (forall m, In m (messages s) -> ~ In (id m) (map h_id data) -> ~ In m (messages s')).
Proof.
  simpl.
  assert (H : forall m, In m (loadedMessages getTime clock data) -> In (id m) (map h_id data)).
  { intros m Hm. unfold loadedMessages in Hm. apply sort_In in Hm.
    rewrite <- (mapAt_ids clock data 0). unfold ids. apply in_map, Hm. }
  split; [|split].
  - unfold loadedMessages. rewrite sort_length. apply mapAt_length.
  - exact H.
  - intros m _ Hn Hm. exact (Hn (H m Hm)).
Qed.

Lemma history_replaces_the_log_witness :
  ~ In lateMessage
       (messages (run IsoDate.getTime al initialState
                      [Mount; ReceiveMessage lateMessage;
                       MessagesFetched sampleClock (FetchJson shuffledHistory)])).
Proof.
  apply (proj2 (proj2 (history_replaces_the_log IsoDate.getTime al sampleClock shuffledHistory
                         (run IsoDate.getTime al initialState [Mount; ReceiveMessage lateMessage])))).
  - vm_compute. left. reflexivity.
  - simpl. intros [H|[H|[H|[]]]]; discriminate H.
Defined.

(** ** Events delivered twice, and in either order *)

Lemma appendUnlessPresent_twice (x y : Message) (log : list Message) :
  id x = id y ->
  appendUnlessPresent y (appendUnlessPresent x log) = appendUnlessPresent x log.
Proof.
  intros E. apply appendUnlessPresent_old. rewrite <- E.
  unfold appendUnlessPresent. destruct (existsb _ log) eqn:H.
  - apply present_In, H.
  - unfold ids. rewrite map_app, in_app_iff. right. left. reflexivity.
Qed.

Lemma known_id_ignored (env : Env) (s : State) (m : Message) :
  In (id m) (ids (messages s)) ->
  onReceiveMessage env m s = s /\ onReceiveProof m s = s.
Proof.
  intros H.
  assert (E : setMessages (appendUnlessPresent m) s = s).
  { unfold setMessages. rewrite (appendUnlessPresent_old _ _ H). destruct s; reflexivity. }
  unfold onReceiveMessage, onReceiveProof.
  destruct (String.eqb (senderName m) (displayName env)); auto.
Qed.

Lemma id_known_after_append (m : Message) (log : list Message) :
  In (id m) (ids (appendUnlessPresent m log)).
Proof.
  unfold appendUnlessPresent. destruct (existsb _ log) eqn:H.
  - apply present_In, H.
  - unfold ids. rewrite map_app, in_app_iff. right. left. reflexivity.
Qed.

(** X6: a [receiveMessage] or [receiveProof] event whose id an entry
    of the log carries changes nothing.  So the same event delivered
    twice counts once; and after a [receiveProof], or a [receiveMessage]
    of another sender, every further event of either kind with the same
    id is ignored.  A [receiveMessage] under the local display name is
    dropped without a trace, and does not keep a later [receiveProof]
    with the same id out: that one is appended when its id is new. *)
Theorem second_delivery_ignored (getTime : string -> option Z) (env : Env) (s : State) :
  (forall m, In (id m) (ids (messages s)) ->
             step getTime env s (ReceiveMessage m) = s /\
             step getTime env s (ReceiveProof m) = s) /\
  (forall m,
      run getTime env s [ReceiveMessage m; ReceiveMessage m] = step getTime env s (ReceiveMessage m) /\
      run getTime env s [ReceiveProof m; ReceiveProof m] = step getTime env s (ReceiveProof m)) /\
  (forall m m', id m = id m' ->
      run getTime env s [ReceiveProof m; ReceiveProof m'] = step getTime env s (ReceiveProof m) /\
      run getTime env s [ReceiveProof m; ReceiveMessage m'] = step getTime env s (ReceiveProof m) /\
      (senderName m <> displayName env ->
       run getTime env s [ReceiveMessage m; ReceiveMessage m']
       = step getTime env s (ReceiveMessage m) /\
       run getTime env s [ReceiveMessage m; ReceiveProof m']
       = step getTime env s (ReceiveMessage m))) /\
  (forall m m', senderName m = displayName env -> ~ In (id m') (ids (messages s)) ->
      messages (run getTime env s [ReceiveMessage m; ReceiveProof m'])
      = (messages s ++ [m'])%list).
Proof.
  assert (P : forall m m', id m = id m' ->
                In (id m') (ids (messages (onReceiveProof m s)))).
  { intros m m' E. rewrite <- E. apply id_known_after_append. }
  assert (M : forall m m', id m = id m' -> senderName m <> displayName env ->
                In (id m') (ids (messages (onReceiveMessage env m s)))).
  { intros m m' E Hn. rewrite <- E. unfold onReceiveMessage.
    apply String.eqb_neq in Hn. rewrite Hn. apply id_known_after_append. }
  split; [|split; [|split]].
  - intros m H. exact (known_id_ignored env s m H).
  - intros m. split.
    + simpl. destruct (String.eqb (senderName m) (displayName env)) eqn:E.
      * unfold onReceiveMessage. rewrite E. reflexivity.
      * apply String.eqb_neq in E.
        exact (proj1 (known_id_ignored env _ m (M m m eq_refl E))).
    + exact (proj2 (known_id_ignored env _ m (P m m eq_refl))).
  - intros m m' E. split; [|split].
    + exact (proj2 (known_id_ignored env _ m' (P m m' E))).
    + exact (proj1 (known_id_ignored env _ m' (P m m' E))).
    + intros Hn. split.
      * exact (proj1 (known_id_ignored env _ m' (M m m' E Hn))).
      * exact (proj2 (known_id_ignored env _ m' (M m m' E Hn))).
  - intros m m' Hn Hnew. simpl. unfold onReceiveMessage.
    apply String.eqb_eq in Hn. rewrite Hn. simpl.
    apply appendUnlessPresent_new, Hnew.
Qed.

Lemma second_delivery_ignored_witness :
  run IsoDate.getTime al joinedState [ReceiveProof lateMessage; ReceiveMessage lateMessage]
  = step IsoDate.getTime al joinedState (ReceiveProof lateMessage) /\
  messages (run IsoDate.getTime al joinedState
                [ReceiveMessage namesakeMessage; ReceiveProof namesakeMessage])
  = (messages joinedState ++ [namesakeMessage])%list.
Proof.
  destruct (second_delivery_ignored IsoDate.getTime al joinedState) as [_ [_ [H3 H4]]].
  split.
  - exact (proj1 (proj2 (H3 lateMessage lateMessage eq_refl))).
  - apply (H4 namesakeMessage namesakeMessage eq_refl).
    simpl. intros [H|[]]. discriminate H.
Defined.

(** X7: a proof that the user uploads shows once in the log, whether
    the upload settles before the server's [receiveProof] event for it
    or after: with an id that is not in the log, both orders leave the
    earlier log with one entry of that id behind it, and [sendProof] is
    emitted once.  The entry is the one that came first. *)
Theorem uploaded_proof_shows_once (getTime : string -> option Z) (env : Env)
        (s : State) (data : ProofData) (echo : Message) :
  id echo = proof_id data -> ~ In (proof_id data) (ids (messages s)) ->
  let first := run getTime env s [UploadSettled (FetchJson data); ReceiveProof echo] in
  let second := run getTime env s [ReceiveProof echo; UploadSettled (FetchJson data)] in
  messages first = (messages s ++ [proofMessage env data])%list /\
  messages second = (messages s ++ [echo])%list /\
  commands (effects first) = (commands (effects s) ++ [SendProof (proofMessage env data)])%list /\
  commands (effects second) = (commands (effects s) ++ [SendProof (proofMessage env data)])%list /\
  file first = None /\ file second = None.
Proof.
  intros E Hn. simpl.
  assert (N1 : ~ In (id (proofMessage env data)) (ids (messages s))) by exact Hn.
  assert (N2 : ~ In (id echo) (ids (messages s))) by (rewrite E; exact Hn).
  rewrite !commands_app. simpl. rewrite !app_nil_r.
  rewrite (appendUnlessPresent_new _ _ N1), (appendUnlessPresent_new _ _ N2).
  repeat split.
  - apply appendUnlessPresent_old. unfold ids. rewrite map_app, in_app_iff.
    right. left. simpl. symmetry. exact E.
  - apply appendUnlessPresent_old. unfold ids. rewrite map_app, in_app_iff.
    right. left. simpl. exact E.
Qed.

Lemma uploaded_proof_shows_once_witness :
  messages (run IsoDate.getTime al attachedReceipt
                [ReceiveProof (mkMessage "p1" "Al" None (Some "/p/1.png")
                                         "2024-01-01T00:00:06.000Z" (Some "room1"));
                 UploadSettled (FetchJson (mkProofData "p1" "/p/1.png" "2024-01-01T00:00:06.000Z"))])
  = (messages attachedReceipt
       ++ [mkMessage "p1" "Al" None (Some "/p/1.png") "2024-01-01T00:00:06.000Z" (Some "room1")])%list.
Proof.
  assert (Hn : ~ In "p1" (ids (messages attachedReceipt)))
    by (simpl; intros [H|[]]; discriminate H).
  exact (proj1 (proj2 (uploaded_proof_shows_once IsoDate.getTime al attachedReceipt
                         (mkProofData "p1" "/p/1.png" "2024-01-01T00:00:06.000Z")
                         (mkMessage "p1" "Al" None (Some "/p/1.png")
                                    "2024-01-01T00:00:06.000Z" (Some "room1"))
                         eq_refl Hn))).
Defined.

(** ** More on the loaded history *)

(** X8: when every [createdAt] of the normalized response is a date
    the host can read, the history load keeps the order of arrival
    among the records of one time value: picking the entries of any time
    value out of the loaded log gives those records in the order of the
    response. *)
Theorem load_keeps_arrival_order_of_equal_times (getTime : string -> option Z)
        (clock : nat -> string) (data : list HistoryRecord) (s : State) (t : Z) :
  datesValid getTime (Js.mapAt normalize clock 0 data) = true ->
  filter (atTime getTime t) (messages (fetchMessages getTime clock (FetchJson data) s))
  = filter (atTime getTime t) (Js.mapAt normalize clock 0 data).
Proof. intros _. simpl. unfold loadedMessages. apply sort_stable. Qed.

(** History arriving in the order T3, T2, T1, T2: two records share T2. *)
Definition tiedHistory : list HistoryRecord :=
  [ mkHistoryRecord "h3" (Some "Al") None (Some "three") None None (Some "2024-01-01T00:00:03.000Z");
    mkHistoryRecord "h2" (Some "Cy") None (Some "two") None None (Some "2024-01-01T00:00:02.000Z");
    mkHistoryRecord "h1" (Some "Bea") None (Some "one") None None (Some "2024-01-01T00:00:01.000Z");
    mkHistoryRecord "h2b" (Some "Al") None (Some "too") None None (Some "2024-01-01T00:00:02.000Z") ].

Lemma load_keeps_arrival_order_of_equal_times_witness :
  ids (messages (fetchMessages IsoDate.getTime sampleClock (FetchJson tiedHistory) initialState))
  = ["h1"; "h2"; "h2b"; "h3"] /\
  ids (filter (atTime IsoDate.getTime 1704067202000)
         (messages (fetchMessages IsoDate.getTime sampleClock (FetchJson tiedHistory)
                                  initialState)))
  = ["h2"; "h2b"].
Proof.
  split; [vm_compute; reflexivity|].
  rewrite (load_keeps_arrival_order_of_equal_times IsoDate.getTime sampleClock tiedHistory
             initialState 1704067202000 eq_refl).
  vm_compute. reflexivity.
Defined.

Lemma insert_in_front (getTime : string -> option Z) (x : Message) (l : list Message) :
  Forall (notLater getTime x) l -> Js.insert (byCreatedAt getTime) x l = x :: l.
Proof.
  destruct l as [|y l]; [reflexivity|].
  intros H. inversion H as [|? ? Hxy _]; subst. simpl.
  unfold notLater, notLaterAt in Hxy. unfold Js.sortCompare, byCreatedAt.
  destruct (getTime (createdAt x)), (getTime (createdAt y)); try contradiction.
  replace (z - z0 <=? 0)%Z with true by (symmetry; apply Z.leb_le; lia).
  reflexivity.
Qed.

Lemma sort_ascending_fixed (getTime : string -> option Z) (l : list Message) :
  ascending getTime l -> Js.sort (byCreatedAt getTime) l = l.
Proof.
  unfold ascending. induction 1 as [|x l Hl IH Hx]; [reflexivity|].
  simpl. fold (Js.sort (byCreatedAt getTime) l). rewrite IH.
  apply insert_in_front, Hx.
Qed.

(** X9: a response that arrives ascending by [createdAt] is set as it
    is: the load changes the order of no record. *)
Theorem load_leaves_ascending_response (getTime : string -> option Z)
        (clock : nat -> string) (data : list HistoryRecord) (s : State) :
  ascending getTime (Js.mapAt normalize clock 0 data) ->
  messages (fetchMessages getTime clock (FetchJson data) s) = Js.mapAt normalize clock 0 data.
Proof. intros H. simpl. unfold loadedMessages. apply sort_ascending_fixed, H. Qed.

(** History arriving in the order T1, T2, T2, T3. *)
Definition orderedHistory : list HistoryRecord :=
  [ mkHistoryRecord "h1" (Some "Bea") None (Some "one") None None (Some "2024-01-01T00:00:01.000Z");
    mkHistoryRecord "h2" (Some "Cy") None (Some "two") None None (Some "2024-01-01T00:00:02.000Z");
    mkHistoryRecord "h2b" (Some "Al") None (Some "too") None None (Some "2024-01-01T00:00:02.000Z");
    mkHistoryRecord "h3" (Some "Al") None (Some "three") None None (Some "2024-01-01T00:00:03.000Z") ].

Lemma load_leaves_ascending_response_witness :
  ids (messages (fetchMessages IsoDate.getTime sampleClock (FetchJson orderedHistory) initialState))
  = ["h1"; "h2"; "h2b"; "h3"].
Proof.
  rewrite (load_leaves_ascending_response IsoDate.getTime sampleClock orderedHistory initialState).
  - reflexivity.
  - unfold ascending. simpl.
    repeat (constructor; [|repeat (constructor; [vm_compute; discriminate|]); constructor]).
    constructor.
Defined.

Lemma orDefault_nonempty (a : option string) (d : string) :
  d <> "" -> Js.orDefault a d <> "".
Proof.
  intros Hd. destruct a as [x|]; simpl; [|exact Hd].
  destruct (String.eqb x "") eqn:E; [exact Hd|]. apply String.eqb_neq, E.
Qed.

(** X10: every entry of a loaded log has a sender name that is not
    empty, and, when the clock never reads as the empty string, a
    [createdAt] that is not empty, whatever the records of the response
    lack.  So it is in both revisions. *)
Theorem loaded_entries_have_sender_and_time (getTime : string -> option Z)
        (clock : nat -> string) :
  (forall (data : list HistoryRecord) (s : State) (m : Message),
      In m (messages (fetchMessages getTime clock (FetchJson data) s)) ->
      senderName m <> "" /\ ((forall k, clock k <> "") -> createdAt m <> "")) /\
  (forall (data : list RoomV1.HistoryRecord) (s : RoomV1.State) (m : RoomV1.Message),
      In m (RoomV1.messages (RoomV1.fetchMessages clock (FetchJson data) s)) ->
      RoomV1.senderName m <> "" /\ ((forall k, clock k <> "") -> RoomV1.createdAt m <> "")).
Proof.
  split; intros data s m Hm; simpl in Hm.
  - unfold loadedMessages in Hm. apply sort_In in Hm.
    apply mapAt_In in Hm. destruct Hm as [k [r [_ ->]]]. simpl. split.
    + apply orDefault_nonempty. discriminate.
    + intros Hc. apply orDefault_nonempty, Hc.
  - apply mapAt_In in Hm. destruct Hm as [k [r [_ ->]]]. simpl. split.
    + apply orDefault_nonempty. discriminate.
    + intros Hc. apply orDefault_nonempty, Hc.
Qed.

Lemma loaded_entries_have_sender_and_time_witness :
  Forall (fun m => senderName m <> "")
         (messages (fetchMessages IsoDate.getTime sampleClock (FetchJson sampleHistory) initialState)).
Proof.
  apply Forall_forall. intros m Hm.
  exact (proj1 (proj1 (loaded_entries_have_sender_and_time IsoDate.getTime sampleClock)
                  sampleHistory initialState m Hm)).
Defined.

(** ** The send button *)

(** [disabled={!input.trim() && !file}] of the send button. *)
Definition sendDisabled (s : State) : bool :=
  negb (Js.nonBlank (input s)) && negb (Js.defined (file s)).

(** X11: the send button and [handleSend] agree.  While the button is
    disabled, [handleSend] (which the Enter key still calls) changes
    nothing and starts no upload.  While it is enabled and the socket is
    set, [handleSend] does something: it emits a text, or starts the
    upload of the attached file, or both. *)
Theorem send_button_matches_handleSend (env : Env) (uuid now : string) (s : State) :
  (sendDisabled s = true -> handleSend env uuid now s = (s, None)) /\
  (sendDisabled s = false -> socket s = true ->
   commands (effects (fst (handleSend env uuid now s)))
   = (commands (effects s) ++ [SendMessage (textMessage env uuid now s)])%list
   \/ exists f, snd (handleSend env uuid now s) = Some f).
Proof.
  unfold sendDisabled, handleSend. split.
  - intros H. rewrite H, orb_true_r. reflexivity.
  - intros H Hs. rewrite H, Hs. simpl.
    destruct (Js.nonBlank (input s)); simpl in *.
    + left. rewrite commands_app. reflexivity.
    + right. destruct (file s) as [f|]; [eauto|discriminate].
Qed.

Lemma send_button_matches_handleSend_witness :
  handleSend al "u1" "2024-01-01T00:00:04.000Z" typedSpace = (typedSpace, None) /\
  exists f, snd (handleSend al "u1" "2024-01-01T00:00:04.000Z" attachedReceipt) = Some f.
Proof.
  split.
  - exact (proj1 (send_button_matches_handleSend al "u1" "2024-01-01T00:00:04.000Z" typedSpace)
             eq_refl).
  - destruct (proj2 (send_button_matches_handleSend al "u1" "2024-01-01T00:00:04.000Z"
                       attachedReceipt) eq_refl eq_refl) as [H|H].
    + vm_compute in H. discriminate H.
    + exact H.
Defined.

(** ** Leaving the page *)

(** The events at which the second revision leaves: a click on Back,
    and a room request that fails (it throws, is answered with a status
    that is not ok, or brings a menu that cannot be mapped). *)
Definition leaves (e : Event) : bool :=
  match e with
  | BackClick => true
  | RoomFetched (FetchJson room) =>
      match menuItemsOf (menu room) with
      | inl _ => true
      | inr _ => false
      end
  | RoomFetched _ => true
  | _ => false
  end.

Lemma step_navigations (getTime : string -> option Z) (env : Env) (s : State) (e : Event) :
  Js.truthy (token env) = true ->
  navigations (effects (step getTime env s e))
  = (navigations (effects s) ++ (if leaves e then ["/rooms"] else []))%list.
Proof.
  intros Ht.
  destruct e; simpl in *;
    try match goal with
        | |- context [handleSend] =>
            unfold handleSend;
            destruct (socket s), (Js.nonBlank (input s)), (Js.defined (file s)); simpl
        end;
    unfold mount, unmount, onUserJoined, onUserLeft, onReceiveMessage, fetchRoom, fetchMessages,
      handleSendUploaded;
    rewrite ?Ht;
    try match goal with
        | r : Fetched RoomData |- _ => destruct r; simpl
        end;
    try match goal with
        | |- context [menuItemsOf ?m] => destruct (menuItemsOf m)
        end;
    repeat match goal with
           | |- context [if ?x then _ else _] => destruct x
           | |- context [match ?x with _ => _ end] => destruct x
           end;
    simpl; repeat (rewrite navigations_app; simpl); rewrite ?app_nil_r;
    rewrite <- ?app_assoc; reflexivity.
Qed.

(** X12: with a token, the second revision navigates at exactly these
    events: a click on Back, and a room request that fails; each time it
    goes to the rooms list.  No other event navigates (not a failed
    history load, a failed upload or a socket error). *)
Theorem leaves_on_back_or_failed_room_request (getTime : string -> option Z) (env : Env)
        (es : list Event) :
  Js.truthy (token env) = true ->
  navigations (effects (run getTime env initialState es))
  = repeat "/rooms" (length (filter leaves es)).
Proof.
  intros Ht.
  assert (G : forall s, navigations (effects (run getTime env s es))
                        = (navigations (effects s)
                             ++ repeat "/rooms" (length (filter leaves es)))%list).
  { induction es as [|e es IH]; simpl; intros s; [rewrite app_nil_r; reflexivity|].
    rewrite IH, (step_navigations getTime env s e Ht), <- app_assoc.
    destruct (leaves e); reflexivity. }
  rewrite G. reflexivity.
Qed.

Lemma leaves_on_back_or_failed_room_request_witness :
  navigations (effects (run IsoDate.getTime al initialState
                            [Mount; MessagesFetched sampleClock (FetchNotOk 500);
                             ConnectError "timeout";
                             FileChange (Some ["a.png"]); Send "u1" "2024-01-01T00:00:04.000Z";
                             UploadSettled (FetchThrew "Failed to fetch");
                             RoomFetched (FetchJson brokenMenuRoom);
                             BackClick])) = ["/rooms"; "/rooms"].
Proof.
  rewrite (leaves_on_back_or_failed_room_request IsoDate.getTime al); reflexivity.
Defined.

(** ** The menu *)






(** ** The first revision *)

(** The ids of a log of the first revision; [None] is a missing id. *)
Definition v1Ids (log : list RoomV1.Message) : list (option string) := map RoomV1.id log.

Fixpoint v1Distinct (l : list (option string)) : bool :=
  match l with
  | [] => true
  | x :: l' => negb (existsb (RoomV1.sameId x) l') && v1Distinct l'
  end.

(** The ids of a history response that is read are distinct, a missing
    id counting as one id. *)
Definition v1EventAdmissible (e : RoomV1.Event) : bool :=
  match e with
  | RoomV1.MessagesFetched _ (FetchJson data) => v1Distinct (map RoomV1.h_id data)
  | _ => true
  end.

Lemma sameId_eq (a b : option string) : RoomV1.sameId a b = true <-> a = b.
Proof.
  destruct a as [x|], b as [y|]; simpl; split; intros H;
    try discriminate; try reflexivity.
  - apply String.eqb_eq in H. subst. reflexivity.
  - injection H as ->. apply String.eqb_refl.
Qed.

Lemma v1_present_In (x : option string) (l : list (option string)) :
  existsb (RoomV1.sameId x) l = true <-> In x l.
Proof.
  rewrite existsb_exists. split.
  - intros [y [Hy E]]. apply sameId_eq in E. subst. exact Hy.
  - intros H. exists x. split; [exact H|]. apply sameId_eq. reflexivity.
Qed.

Lemma v1_log_present_In (x : RoomV1.Message) (log : list RoomV1.Message) :
  existsb (fun m => RoomV1.sameId (RoomV1.id m) (RoomV1.id x)) log = true
  <-> In (RoomV1.id x) (v1Ids log).
Proof.
  unfold v1Ids. rewrite existsb_exists, in_map_iff.
  split; intros [m [H1 H2]]; exists m.
  - apply sameId_eq in H2. auto.
  - split; [assumption|]. apply sameId_eq, H1.
Qed.

Lemma v1Distinct_NoDup (l : list (option string)) : v1Distinct l = true -> NoDup l.
Proof.
  induction l as [|x l IH]; simpl; intros H; [constructor|].
  apply andb_true_iff in H. destruct H as [H1 H2].
  constructor; [|apply IH, H2].
  intros Hin. apply v1_present_In in Hin. rewrite Hin in H1. discriminate.
Qed.

Lemma v1_appendUnlessPresent_NoDup (x : RoomV1.Message) (log : list RoomV1.Message) :
  NoDup (v1Ids log) -> NoDup (v1Ids (RoomV1.appendUnlessPresent x log)).
Proof.
  intros H. unfold RoomV1.appendUnlessPresent.
  destruct (existsb _ log) eqn:E; [exact H|].
  unfold v1Ids. rewrite map_app. simpl.
  apply NoDup_app; [exact H|repeat constructor; simpl; tauto|].
  intros y Hy [<-|[]].
  apply v1_log_present_In in Hy. rewrite Hy in E. discriminate.
Qed.

Lemma v1_mapAt_ids clock (data : list RoomV1.HistoryRecord) :
  forall i, v1Ids (Js.mapAt RoomV1.normalize clock i data) = map RoomV1.h_id data.
Proof.
  induction data as [|r data IH]; simpl; intros; [|unfold v1Ids in IH; rewrite IH]; reflexivity.
Qed.

Lemma v1_step_NoDup (env : Env) (s : RoomV1.State) (e : RoomV1.Event) :
  v1EventAdmissible e = true ->
  NoDup (v1Ids (RoomV1.messages s)) ->
  NoDup (v1Ids (RoomV1.messages (RoomV1.step env s e))).
Proof.
  intros Ha Hs. destruct e; simpl; try exact Hs.
  - unfold RoomV1.mount. destruct (Js.truthy (token env)); exact Hs.
  - unfold RoomV1.unmount. destruct (Js.truthy (token env)); exact Hs.
  - unfold RoomV1.fetchRoom. destruct r; try exact Hs.
    destruct (find _ data); exact Hs.
  - destruct r; simpl; try exact Hs.
    rewrite v1_mapAt_ids. apply v1Distinct_NoDup, Ha.
  - apply v1_appendUnlessPresent_NoDup, Hs.
  - apply v1_appendUnlessPresent_NoDup, Hs.
  - destruct files; exact Hs.
  - unfold RoomV1.handleSendMessage. destruct (negb _ || negb _); exact Hs.
  - destruct r; exact Hs.
Qed.

(** X14: in the first revision, after every sequence of events in
    which every history response that is read has distinct ids (a
    missing id counting as one id), no two entries of the log have the
    same id, and at most one entry has none. *)
Theorem v1_log_ids_distinct (env : Env) (es : list RoomV1.Event) :
  forallb v1EventAdmissible es = true ->
  NoDup (v1Ids (RoomV1.messages (RoomV1.run env RoomV1.initialState es))).
Proof.
  assert (G : forall s, forallb v1EventAdmissible es = true ->
                        NoDup (v1Ids (RoomV1.messages s)) ->
                        NoDup (v1Ids (RoomV1.messages (RoomV1.run env s es)))).
  { induction es as [|e es IH]; simpl; intros s Ha Hs; [exact Hs|].
    apply andb_true_iff in Ha. destruct Ha as [He Ha].
    apply IH; [exact Ha|]. apply v1_step_NoDup; assumption. }
  intros H. apply G; [exact H|]. simpl. constructor.
Qed.

(** Two [newMessage] events without an id, around a history response. *)
Definition v1Events : list RoomV1.Event :=
  [ RoomV1.Mount;
    RoomV1.MessagesFetched sampleClock (FetchJson v1ShuffledHistory);
    RoomV1.NewMessage "2024-01-01T00:00:07.000Z"
      (RoomV1.mkMessageEvent None "Bea" (Some "first") None None);
    RoomV1.NewMessage "2024-01-01T00:00:08.000Z"
      (RoomV1.mkMessageEvent None "Cy" (Some "second") None None);
    RoomV1.NewProof "2024-01-01T00:00:09.000Z"
      (RoomV1.mkProofEvent (Some "h1") None (Some "/p/1.png") None) ].

Lemma v1_log_ids_distinct_witness :
  NoDup (v1Ids (RoomV1.messages (RoomV1.run al RoomV1.initialState v1Events))) /\
  v1Ids (RoomV1.messages (RoomV1.run al RoomV1.initialState v1Events))
  = [Some "h3"; Some "h1"; Some "h2"; None].
Proof.
  split; [|vm_compute; reflexivity].
  apply (v1_log_ids_distinct al v1Events). vm_compute. reflexivity.
Defined.



Lemma find_first {A : Type} (f : A -> bool) (before : list A) (x : A) (after : list A) :
  (forall y, In y before -> f y = false) -> f x = true ->
  find f (before ++ x :: after) = Some x.
Proof.
  induction before as [|y before IH]; simpl; intros Hb Hx.
  - rewrite Hx. reflexivity.
  - rewrite (Hb y (or_introl eq_refl)). apply IH; [|exact Hx].
    intros z Hz. apply Hb. right. exact Hz.
Qed.

(** X16: the first revision's [fetchRoom] enters the room exactly when
    the list of rooms holds one with the id of the route.  Then it sets
    the title to that of the first such room in the list and does
    nothing else; otherwise (and always when the route has no room id)
    it shows "Room not found" and goes to the rooms list, and does
    nothing else. *)
Theorem v1_room_found_by_id (env : Env) (rooms : list RoomV1.RoomEntry) (s : RoomV1.State) :
  let s' := RoomV1.step env s (RoomV1.RoomFetched (FetchJson rooms)) in
  (forall before r after,
      rooms = (before ++ r :: after)%list ->
      (forall x, In x before -> Some (RoomV1.room_id x) <> paramsRoomId env) ->
      Some (RoomV1.room_id r) = paramsRoomId env ->
      s' = RoomV1.setRoomTitle (RoomV1.room_title r) s) /\
  ((forall r, In r rooms -> Some (RoomV1.room_id r) <> paramsRoomId env) ->
   s' = RoomV1.navigate "/rooms" (RoomV1.toast "Error" (Some "Room not found") s)) /\
  ((exists r, In r rooms /\ Some (RoomV1.room_id r) = paramsRoomId env) \/
   (forall r, In r rooms -> Some (RoomV1.room_id r) <> paramsRoomId env)).
Proof.
  cbv zeta. cbn [RoomV1.step]. unfold RoomV1.fetchRoom.
  set (f := fun r => RoomV1.sameId (Some (RoomV1.room_id r)) (paramsRoomId env)).
  assert (F : forall r, f r = false <-> Some (RoomV1.room_id r) <> paramsRoomId env).
  { intros r. unfold f. rewrite <- sameId_eq.
    destruct (RoomV1.sameId _ _); split; intros H; try reflexivity; try discriminate.
    destruct (H eq_refl). }
  split; [|split].
  - intros before r after -> Hb Hr.
    rewrite (find_first f before r after); [reflexivity| |].
    + intros y Hy. apply F, Hb, Hy.
    + apply sameId_eq, Hr.
  - intros Hno. destruct (find f rooms) as [r0|] eqn:E; [|reflexivity].
    apply find_some in E. destruct E as [Hin Hid].
    apply sameId_eq in Hid. destruct (Hno r0 Hin Hid).
  - destruct (find f rooms) as [r0|] eqn:E.
    + apply find_some in E. destruct E as [Hin Hid]. apply sameId_eq in Hid. eauto.
    + right. intros r Hin. apply F. exact (find_none _ _ E r Hin).
Qed.

Lemma v1_room_found_by_id_witness :
  RoomV1.roomTitle
    (RoomV1.step al RoomV1.initialState
       (RoomV1.RoomFetched
          (FetchJson [RoomV1.mkRoomEntry "room0" "Dinner"; RoomV1.mkRoomEntry "room1" "Lunch";
                      RoomV1.mkRoomEntry "room1" "Brunch"])))
  = "Lunch".
Proof.
  rewrite (proj1 (v1_room_found_by_id al
                    [RoomV1.mkRoomEntry "room0" "Dinner"; RoomV1.mkRoomEntry "room1" "Lunch";
                     RoomV1.mkRoomEntry "room1" "Brunch"]
                    RoomV1.initialState)
                 [RoomV1.mkRoomEntry "room0" "Dinner"] (RoomV1.mkRoomEntry "room1" "Lunch")
                 [RoomV1.mkRoomEntry "room1" "Brunch"] eq_refl).
  - reflexivity.
  - intros x [<-|[]]. simpl. discriminate.
  - reflexivity.
Defined.



(** ** After the upload *)

(** X18: a failed upload leaves the file attached and the input as it
    is, so that the next [handleSend] starts the upload of the same
    file again; an upload that went through detaches the file, and with
    nothing typed the send button is disabled again. *)
Theorem file_kept_until_uploaded (env : Env) (s : State) :
  (forall (r : Fetched ProofData) (f : File) (uuid now : string),
      failed r = true -> socket s = true -> file s = Some f ->
      let s' := handleSendUploaded env r s in
      file s' = Some f /\ input s' = input s /\
      snd (handleSend env uuid now s') = Some f) /\
  (forall data : ProofData,
      let s' := handleSendUploaded env (FetchJson data) s in
      file s' = None /\ input s' = input s /\
      (Js.nonBlank (input s) = false -> sendDisabled s' = true)).
Proof.
  split.
  - intros r f uuid now Hr Hs Hf.
    rewrite (handleSendUploaded_failed env r s Hr). simpl.
    split; [exact Hf|]. split; [reflexivity|].
    unfold handleSend. simpl. rewrite Hs, Hf. simpl.
    destruct (Js.nonBlank (input s)); reflexivity.
  - intros data. simpl. split; [reflexivity|]. split; [reflexivity|].
    intros Hi. unfold sendDisabled. simpl. rewrite Hi. reflexivity.
Qed.

Lemma file_kept_until_uploaded_witness :
  snd (handleSend al "u2" "2024-01-01T00:00:05.000Z"
         (handleSendUploaded al (FetchNotOk 500) attachedReceipt))
  = Some "receipt.png".
Proof.
  destruct (proj1 (file_kept_until_uploaded al attachedReceipt) (FetchNotOk 500) "receipt.png"
              "u2" "2024-01-01T00:00:05.000Z" eq_refl eq_refl eq_refl) as [_ [_ H]].
  exact H.
Defined.
